(** * A learning-management backend: request handlers over a relational
      store and an upload directory

    Shallow embedding of [main.py]: every modelled endpoint is a computation
    in a small state-and-exception monad over a [World] (the database tables
    and the upload directory).  Python exceptions are values of [exn]; the
    [try]/[except] ladders of the handlers are written with [try_except].

    The model follows the runs in which [get_db()] obtains a connection; a
    refused connection raises inside the [try] block and is answered
    through the handler's last [except] clause.  The upload directory is a
    map from the relative path to the bytes of the file; a write into a
    directory that does not exist is refused, as [open] refuses it (limits
    on the length of a name and the like are not modelled). *)

From Stdlib Require Import QArith_base.
From stdpp Require Import base numbers list strings gmap pretty sorting.

Local Open Scope string_scope.
Local Open Scope Z_scope.

(** ** SHA-256 ([hashlib.sha256]), after FIPS 180-4 *)

Module SHA256.

Definition w32 (x : Z) : Z := x `mod` 2 ^ 32.

Definition add32 (x y : Z) : Z := w32 (x + y).

Definition rotr (n x : Z) : Z :=
  Z.lor (Z.shiftr x n) (w32 (Z.shiftl x (32 - n))).

Definition not32 (x : Z) : Z := Z.lxor x (2 ^ 32 - 1).

Definition Ch (x y z : Z) : Z :=
  Z.lxor (Z.land x y) (Z.land (not32 x) z).

Definition Maj (x y z : Z) : Z :=
  Z.lxor (Z.lxor (Z.land x y) (Z.land x z)) (Z.land y z).

Definition Sigma0 (x : Z) : Z :=
  Z.lxor (Z.lxor (rotr 2 x) (rotr 13 x)) (rotr 22 x).

Definition Sigma1 (x : Z) : Z :=
  Z.lxor (Z.lxor (rotr 6 x) (rotr 11 x)) (rotr 25 x).

Definition sigma0 (x : Z) : Z :=
  Z.lxor (Z.lxor (rotr 7 x) (rotr 18 x)) (Z.shiftr x 3).

Definition sigma1 (x : Z) : Z :=
  Z.lxor (Z.lxor (rotr 17 x) (rotr 19 x)) (Z.shiftr x 10).

(** The round constants are the leading 32 fractional bits of the cube
    roots of the first 64 primes, the initial state those of the square
    roots of the first 8. *)

Definition is_prime (p : Z) : bool :=
  forallb (fun d => negb (p `mod` d =? 0)) (seqZ 2 (p - 2)).

Definition primes64 : list Z :=
  Eval vm_compute in List.filter is_prime (seqZ 2 310).

(** Largest [r < 2 ^ bits] with [r ^ 3 <= n], found bit by bit. *)
Fixpoint icbrt_from (bits : nat) (n r : Z) : Z :=
  match bits with
  | O => r
  | S b =>
      let r' := r + 2 ^ Z.of_nat b in
      icbrt_from b n (if r' * r' * r' <=? n then r' else r)
  end.

Definition K : list Z :=
  Eval vm_compute in
    map (fun p => w32 (icbrt_from 40 (p * 2 ^ 96) 0)) primes64.

Definition H0 : list Z :=
  Eval vm_compute in
    map (fun p => w32 (Z.sqrt (p * 2 ^ 64))) (take 8 primes64).

Definition byte_of (c : Ascii.ascii) : Z := Z.of_N (Ascii.N_of_ascii c).

Fixpoint bytes_of (s : string) : list Z :=
  match s with
  | EmptyString => []
  | String c s' => byte_of c :: bytes_of s'
  end.

(** Big-endian bytes of [x], [n] of them. *)
Fixpoint be_bytes (n : nat) (x : Z) : list Z :=
  match n with
  | O => []
  | S m => (Z.shiftr x (8 * Z.of_nat m)) `mod` 256 :: be_bytes m x
  end.

Definition pad (msg : list Z) : list Z :=
  let len := Z.of_nat (length msg) in
  let zeros := Z.to_nat ((55 - len) `mod` 64) in
  msg ++ 128 :: replicate zeros 0 ++ be_bytes 8 (8 * len).

Fixpoint chunks (fuel n : nat) (l : list Z) : list (list Z) :=
  match fuel with
  | O => []
  | S f =>
      match l with
      | [] => []
      | _ => take n l :: chunks f n (drop n l)
      end
  end.

Definition be_word (bs : list Z) : Z :=
  fold_left (fun acc b => acc * 256 + b) bs 0.

Definition words_of (block : list Z) : list Z :=
  map be_word (chunks 16 4 block).

(** The message schedule, kept newest word first while it grows. *)
Fixpoint extend (n : nat) (rev_w : list Z) : list Z :=
  match n with
  | O => rev_w
  | S m =>
      let at_ i := nth i rev_w 0 in
      let wt :=
        add32 (add32 (sigma1 (at_ 1%nat)) (at_ 6%nat))
              (add32 (sigma0 (at_ 14%nat)) (at_ 15%nat)) in
      extend m (wt :: rev_w)
  end.

Definition schedule (block : list Z) : list Z :=
  rev (extend 48 (rev (words_of block))).

Definition regs : Type := (Z * Z * Z * Z * Z * Z * Z * Z)%type.

Definition round (s : regs) (kw : Z * Z) : regs :=
  let '(a, b, c, d, e, f, g, h) := s in
  let t1 := add32 (add32 (add32 h (Sigma1 e)) (Ch e f g))
                  (add32 (fst kw) (snd kw)) in
  let t2 := add32 (Sigma0 a) (Maj a b c) in
  (add32 t1 t2, a, b, c, add32 d t1, e, f, g).

Definition compress (s : regs) (block : list Z) : regs :=
  let '(a, b, c, d, e, f, g, h) := s in
  let '(a', b', c', d', e', f', g', h') :=
    fold_left round (combine K (schedule block)) s in
  (add32 a a', add32 b b', add32 c c', add32 d d',
   add32 e e', add32 f f', add32 g g', add32 h h').

Definition init : regs :=
  let at_ i := nth i H0 0 in
  (at_ 0%nat, at_ 1%nat, at_ 2%nat, at_ 3%nat,
   at_ 4%nat, at_ 5%nat, at_ 6%nat, at_ 7%nat).

Definition digest_words (msg : list Z) : list Z :=
  let blocks := chunks (S (length msg)) 64 (pad msg) in
  let '(a, b, c, d, e, f, g, h) := fold_left compress blocks init in
  [a; b; c; d; e; f; g; h].

Definition hex_digit (d : Z) : Ascii.ascii :=
  Ascii.ascii_of_N (Z.to_N (if d <? 10 then 48 + d else 87 + d)).

Definition hex_byte (b : Z) (rest : string) : string :=
  String (hex_digit (b / 16)) (String (hex_digit (b `mod` 16)) rest).

Definition hexdigest (s : string) : string :=
  fold_right hex_byte ""
    (concat (map (be_bytes 4) (digest_words (bytes_of s)))).

End SHA256.

(** [hash_password]: the hex digest of the UTF-8 bytes of the password
    (a [string] here is the byte string Python obtains from [encode()]). *)
Definition hash_password (password : string) : string :=
  SHA256.hexdigest password.

Global Arguments hash_password : simpl never.

(** ** The string operations the handlers use *)

(** [s.lstrip(chars)]: drop leading characters that occur in [chars]. *)
Fixpoint lstrip (chars : list Ascii.ascii) (s : string) : string :=
  match s with
  | EmptyString => EmptyString
  | String c s' => if decide (c ∈ chars) then lstrip chars s' else s
  end.

Definition slash : Ascii.ascii := Ascii.ascii_of_nat 47.
Definition dot : Ascii.ascii := Ascii.ascii_of_nat 46.

(** Index of the last occurrence of [c], scanning from index [i]; [acc]
    is the answer so far ([-1] when there is none, as [str.rfind]). *)
Fixpoint rfind_from (c : Ascii.ascii) (cs : list Ascii.ascii) (i acc : Z) : Z :=
  match cs with
  | [] => acc
  | x :: cs' => rfind_from c cs' (i + 1) (if decide (x = c) then i else acc)
  end.

Definition rfind (c : Ascii.ascii) (cs : list Ascii.ascii) : Z :=
  rfind_from c cs 0 (-1).

(** [os.path.splitext(p)[1]] on a POSIX path: the extension starts at the
    last dot of the last path component, unless that component has only
    dots before it. *)
Definition splitext_ext (p : string) : string :=
  let cs := String.list_ascii_of_string p in
  let sepIndex := rfind slash cs in
  let dotIndex := rfind dot cs in
  if decide (sepIndex < dotIndex) then
    let stem := take (Z.to_nat (dotIndex - (sepIndex + 1)))
                     (drop (Z.to_nat (sepIndex + 1)) cs) in
    if forallb (fun c => bool_decide (c = dot)) stem then EmptyString
    else String.string_of_list_ascii (drop (Z.to_nat dotIndex) cs)
  else EmptyString.

Definition lower_ascii (c : Ascii.ascii) : Ascii.ascii :=
  let n := Ascii.N_of_ascii c in
  if ((65 <=? n) && (n <=? 90))%N then Ascii.ascii_of_N (n + 32) else c.

(** [s.lower()], on the ASCII letters.  The handlers compare the result
    with [.pdf], [.mp4], [.avi], [.mov] and [.wmv] only, and no character
    outside ASCII lowers to a letter of these. *)
Fixpoint lower (s : string) : string :=
  match s with
  | EmptyString => EmptyString
  | String c s' => String (lower_ascii c) (lower s')
  end.

(** The [file_type] column computed by [upload_material] and
    [update_material] from the uploaded file's name. *)
Definition classify (filename : string) : string :=
  let file_extension := lower (splitext_ext filename) in
  if decide (file_extension = ".pdf") then "pdf"
  else if decide (file_extension ∈ [".mp4"; ".avi"; ".mov"; ".wmv"]) then "video"
  else "other".

(** ** Python values handed back to the framework *)

#[warnings="-register-all"]
Inductive value : Type :=
| VNone
| VBool (b : bool)
| VInt (n : Z)
| VStr (s : string)
| VTime (t : Z)
| VNum (q : Q)
| VDict (items : list (string * value)).

Definition opt_value {A} (f : A -> value) (o : option A) : value :=
  match o with Some a => f a | None => VNone end.

Fixpoint assoc_get (k : string) (items : list (string * value)) : option value :=
  match items with
  | [] => None
  | (k', v) :: rest => if decide (k = k') then Some v else assoc_get k rest
  end.

(** [d[k]] *)
Definition dict_get (k : string) (d : value) : option value :=
  match d with VDict items => assoc_get k items | _ => None end.

Fixpoint assoc_set (k : string) (v : value) (items : list (string * value))
  : list (string * value) :=
  match items with
  | [] => [(k, v)]
  | (k', v') :: rest =>
      if decide (k = k') then (k, v) :: rest else (k', v') :: assoc_set k v rest
  end.

(** [d[k] = v] *)
Definition dict_set (k : string) (v : value) (d : value) : value :=
  match d with VDict items => VDict (assoc_set k v items) | _ => d end.

(** [if x:] on an [Optional[int]]: [None] and [0] are both false. *)
Definition truthy_int (x : option Z) : bool :=
  match x with Some n => negb (n =? 0) | None => false end.

(** ** The relational store

    A table is a finite map from the primary key [id] to the other columns
    of the row, with the auto-increment counter beside it.  Timestamps are
    seconds, a [DECIMAL] grade is a rational. *)

Record Table (A : Type) : Type := mkTable {
  rows : gmap Z A;
  next_id : Z
}.
Global Arguments mkTable {A} _ _.
Global Arguments rows {A} _.
Global Arguments next_id {A} _.

Record UserRow : Type := mkUser {
  u_email : string;
  u_password : string;
  u_full_name : string;
  u_role : string;
  u_profile_picture : option string
}.

Record CourseRow : Type := mkCourse {
  c_title : string;
  c_description : string;
  c_instructor_id : Z
}.

Record EnrollmentRow : Type := mkEnrollment {
  e_course_id : Z;
  e_student_id : Z;
  e_enrolled_at : Z
}.

Record MaterialRow : Type := mkMaterial {
  m_course_id : Z;
  m_title : string;
  m_file_path : string;
  m_file_type : string;
  m_uploaded_at : Z
}.

Record AnnouncementRow : Type := mkAnnouncement {
  n_course_id : Z;
  n_title : string;
  n_content : string;
  n_created_at : Z
}.

Record AssignmentRow : Type := mkAssignment {
  a_course_id : Z;
  a_title : string;
  a_description : string;
  a_due_date : option string;
  a_instruction_file : option string;
  a_created_at : Z
}.

Record SubmissionRow : Type := mkSubmission {
  s_assignment_id : Z;
  s_student_id : Z;
  s_file_path : option string;
  s_content : string;
  s_grade : option Q;
  s_feedback : option string;
  s_submitted_at : Z;
  s_graded_at : option Z
}.

Record DB : Type := mkDB {
  users : Table UserRow;
  courses : Table CourseRow;
  enrollments : Table EnrollmentRow;
  materials : Table MaterialRow;
  announcements : Table AnnouncementRow;
  assignments : Table AssignmentRow;
  submissions : Table SubmissionRow
}.

Definition empty_table {A} : Table A := mkTable ∅ 1.

Definition empty_db : DB :=
  mkDB empty_table empty_table empty_table empty_table
       empty_table empty_table empty_table.

Definition set_users (t : Table UserRow) (d : DB) : DB :=
  mkDB t (courses d) (enrollments d) (materials d)
       (announcements d) (assignments d) (submissions d).
Definition set_courses (t : Table CourseRow) (d : DB) : DB :=
  mkDB (users d) t (enrollments d) (materials d)
       (announcements d) (assignments d) (submissions d).
Definition set_enrollments (t : Table EnrollmentRow) (d : DB) : DB :=
  mkDB (users d) (courses d) t (materials d)
       (announcements d) (assignments d) (submissions d).
Definition set_materials (t : Table MaterialRow) (d : DB) : DB :=
  mkDB (users d) (courses d) (enrollments d) t
       (announcements d) (assignments d) (submissions d).
Definition set_assignments (t : Table AssignmentRow) (d : DB) : DB :=
  mkDB (users d) (courses d) (enrollments d) (materials d)
       (announcements d) t (submissions d).
Definition set_submissions (t : Table SubmissionRow) (d : DB) : DB :=
  mkDB (users d) (courses d) (enrollments d) (materials d)
       (announcements d) (assignments d) t.

(** The rows a [WHERE] clause on non-key columns selects, with their ids. *)
Definition select {A} (P : A -> Prop) `{!∀ r, Decision (P r)}
    (t : Table A) : list (Z * A) :=
  filter (fun kr => P kr.2) (map_to_list (rows t)).

(** [cursor.fetchone()].  Every query the handlers read this way selects on
    a primary or unique key, so at most one row is pending. *)
Definition fetchone {A} (result : list A) : option A := head result.

(** [INSERT] with a generated id; answers [cursor.lastrowid] too. *)
Definition insert_row {A} (r : A) (t : Table A) : Z * Table A :=
  (next_id t, mkTable (<[next_id t := r]> (rows t)) (next_id t + 1)).

(** [UPDATE ... WHERE id = k] *)
Definition update_row {A} (f : A -> A) (k : Z) (t : Table A) : Table A :=
  mkTable (alter f k (rows t)) (next_id t).

(** [DELETE ... WHERE id = k] *)
Definition delete_row {A} (k : Z) (t : Table A) : Table A :=
  mkTable (delete k (rows t)) (next_id t).

(** ** The world a handler runs in *)

Record World : Type := mkWorld {
  db : DB;
  disk : gmap string (list Byte.byte)
}.

Definition empty_world : World := mkWorld empty_db ∅.

(** A text without a slash: as a file name it stays in its directory. *)
Definition no_slash (s : string) : bool :=
  forallb (fun c => negb (bool_decide (c = slash)))
          (String.list_ascii_of_string s).

(** What a handler reads from its environment besides the request:
    [CURRENT_TIMESTAMP] of the store and the text of
    [datetime.now().timestamp()], the [str] of a float, which holds
    digits, a dot, a sign or an exponent and never a slash. *)
Record Clock : Type := mkClock {
  sql_now : Z;
  py_stamp : string;
  py_stamp_plain : no_slash py_stamp = true
}.

Module UploadFile.
Record t : Type := mk {
  filename : string;
  file : list Byte.byte
}.
End UploadFile.

(** ** Exceptions and the handler monad *)

Inductive exn : Type :=
| HTTPException (status_code : Z) (detail : string)
| IntegrityError (msg : string)
| OSError (msg : string).

(** [str(e)]; an [HTTPException] prints as Starlette's [__str__] does,
    status code then detail. *)
Definition str (e : exn) : string :=
  match e with
  | HTTPException status_code detail => pretty status_code +:+ ": " +:+ detail
  | IntegrityError msg => msg
  | OSError msg => msg
  end.

Inductive outcome (A : Type) : Type :=
| Ok (a : A)
| Raise (e : exn).
Global Arguments Ok {A} _.
Global Arguments Raise {A} _.

Definition M (A : Type) : Type := World -> outcome A * World.

Definition ret {A} (a : A) : M A := fun w => (Ok a, w).

Definition bind {A B} (m : M A) (k : A -> M B) : M B :=
  fun w =>
    match m w with
    | (Ok a, w') => k a w'
    | (Raise e, w') => (Raise e, w')
    end.

Definition raise {A} (e : exn) : M A := fun w => (Raise e, w).

(** [try: body  except ...: handler]. What the body did to the world before
    it raised stays done. *)
Definition try_except {A} (body : M A) (handler : exn -> M A) : M A :=
  fun w =>
    match body w with
    | (Ok a, w') => (Ok a, w')
    | (Raise e, w') => handler e w'
    end.

Global Instance M_ret : MRet M := @ret.
Global Instance M_bind : MBind M := fun A B k m => bind m k.

(** The status a response carries: 200 for a returned value. *)
Definition status_of {A} (r : outcome A) : Z :=
  match r with
  | Ok _ => 200
  | Raise (HTTPException status_code _) => status_code
  | Raise _ => 500
  end.

(** A read-only statement, and one that may change the store or fail. *)
Definition query {A} (f : DB -> A) : M A := fun w => (Ok (f (db w)), w).

Definition execute {A} (f : DB -> outcome (A * DB)) : M A :=
  fun w =>
    match f (db w) with
    | Ok (a, d') => (Ok a, mkWorld d' (disk w))
    | Raise e => (Raise e, w)
    end.

(** ** The upload directory *)

(** [os.path.exists(p)] *)
Definition path_exists (p : string) : M bool :=
  fun w => (Ok (bool_decide (is_Some (disk w !! p))), w).

(** [os.remove(p)] *)
Definition os_remove (p : string) : M unit :=
  fun w =>
    match disk w !! p with
    | Some _ => (Ok tt, mkWorld (db w) (delete p (disk w)))
    | None => (Raise (OSError "[Errno 2] No such file or directory"), w)
    end.

(** The directories there are: [static] and the three under [uploads],
    made by [os.makedirs] when the module is loaded.  No handler makes
    another. *)
Definition existing_dirs : list string :=
  ["static"; "uploads"; "uploads/materials"; "uploads/submissions";
   "uploads/profiles"].

(** What comes before the last slash of a path, if it has a slash. *)
Definition parent_dir (p : string) : option string :=
  let cs := String.list_ascii_of_string p in
  let i := rfind slash cs in
  if decide (0 <= i)
  then Some (String.string_of_list_ascii (take (Z.to_nat i) cs))
  else None.

(** Whether [open(p, "wb")] finds the directory it is to create the file
    in: the working directory for a bare name, one of [existing_dirs]
    otherwise. *)
Definition accepts (p : string) : bool :=
  match parent_dir p with
  | Some d => bool_decide (d ∈ existing_dirs)
  | None => true
  end.

(** The [FileNotFoundError] of [open], whose text names the path. *)
Definition no_such_file (p : string) : exn :=
  OSError ("[Errno 2] No such file or directory: '" +:+ p +:+ "'").

(** [with open(p, "wb") as buffer: shutil.copyfileobj(file.file, buffer)]:
    the file is created, or truncated and rewritten; [open] raises
    [FileNotFoundError] when the directory is not there, which is what a
    slash in the uploaded file's name leads to. *)
Definition write_file (p : string) (data : list Byte.byte) : M unit :=
  fun w =>
    if accepts p then (Ok tt, mkWorld (db w) (<[p := data]> (disk w)))
    else (Raise (no_such_file p), w).

(** ** The statements with a constraint behind them *)

Definition duplicate_entry : exn :=
  IntegrityError "1062 (23000): Duplicate entry".
Definition no_parent_row : exn :=
  IntegrityError "1452 (23000): Cannot add or update a child row: a foreign key constraint fails".

Definition has_id {A} (k : Z) (t : Table A) : bool :=
  bool_decide (is_Some (rows t !! k)).

(** Modelled from the spec: the schema of the seven tables, which [main.py]
    relies on and does not contain. [users.email] is unique. *)
Definition insert_user (u : UserRow) (d : DB) : outcome (Z * DB) :=
  match select (fun r => u_email r = u_email u) (users d) with
  | [] => let '(k, t) := insert_row u (users d) in Ok (k, set_users t d)
  | _ :: _ => Raise duplicate_entry
  end.

(** Modelled from the spec: the schema. A course belongs to one user, its
    instructor. *)
Definition insert_course (c : CourseRow) (d : DB) : outcome (Z * DB) :=
  if has_id (c_instructor_id c) (users d) then
    let '(k, t) := insert_row c (courses d) in Ok (k, set_courses t d)
  else Raise no_parent_row.

(** Modelled from the spec: the schema. An enrollment links one course and
    one user; the pair [(course_id, student_id)] is unique. *)
Definition insert_enrollment (e : EnrollmentRow) (d : DB) : outcome (Z * DB) :=
  match select (fun r => e_course_id r = e_course_id e /\
                         e_student_id r = e_student_id e) (enrollments d) with
  | [] =>
      if has_id (e_course_id e) (courses d) && has_id (e_student_id e) (users d)
      then let '(k, t) := insert_row e (enrollments d) in
           Ok (k, set_enrollments t d)
      else Raise no_parent_row
  | _ :: _ => Raise duplicate_entry
  end.

(** Modelled from the spec: the schema. A material belongs to one course. *)
Definition insert_material (m : MaterialRow) (d : DB) : outcome (Z * DB) :=
  if has_id (m_course_id m) (courses d) then
    let '(k, t) := insert_row m (materials d) in Ok (k, set_materials t d)
  else Raise no_parent_row.

(** Modelled from the spec: the schema. An assignment belongs to one
    course. *)
Definition insert_assignment (a : AssignmentRow) (d : DB) : outcome (Z * DB) :=
  if has_id (a_course_id a) (courses d) then
    let '(k, t) := insert_row a (assignments d) in Ok (k, set_assignments t d)
  else Raise no_parent_row.

(** Modelled from the spec: the schema. A submission belongs to one
    assignment and one user, the pair [(assignment_id, student_id)] is
    unique, and [INSERT ... ON DUPLICATE KEY UPDATE] rewrites [file_path],
    [content] and [submitted_at] of the row that holds the pair. *)
Definition upsert_submission (now : Z) (assignment_id student_id : Z)
    (file_path : option string) (content : string) (d : DB)
  : outcome (unit * DB) :=
  match select (fun r => s_assignment_id r = assignment_id /\
                         s_student_id r = student_id) (submissions d) with
  | (k, _) :: _ =>
      let overwrite r :=
        mkSubmission (s_assignment_id r) (s_student_id r) file_path content
                     (s_grade r) (s_feedback r) now (s_graded_at r) in
      Ok (tt, set_submissions (update_row overwrite k (submissions d)) d)
  | [] =>
      if has_id assignment_id (assignments d) && has_id student_id (users d)
      then
        let r := mkSubmission assignment_id student_id file_path content
                              None None now None in
        Ok (tt, set_submissions (insert_row r (submissions d)).2 d)
      else Raise no_parent_row
  end.

(** Modelled from the spec: the schema. Deleting an assignment row deletes,
    by cascade, the submissions that reference it. *)
Definition delete_assignment_row (assignment_id : Z) (d : DB)
  : outcome (unit * DB) :=
  match rows (assignments d) !! assignment_id with
  | Some _ =>
      let kept :=
        filter (fun kr => s_assignment_id kr.2 <> assignment_id)
               (rows (submissions d)) in
      Ok (tt, set_submissions (mkTable kept (next_id (submissions d)))
                (set_assignments (delete_row assignment_id (assignments d)) d))
  | None => Ok (tt, d)
  end.

(** ** Request bodies (the pydantic models) *)

Module UserRegister.
Record t : Type := mk {
  email : string;
  password : string;
  full_name : string;
  role : string
}.
End UserRegister.

Module UserLogin.
Record t : Type := mk {
  email : string;
  password : string
}.
End UserLogin.

Module Course.
Record t : Type := mk {
  title : string;
  description : string
}.
End Course.

(** ** Rows as the dictionaries a [dictionary=True] cursor yields *)

Definition user_profile (k : Z) (u : UserRow) : value :=
  VDict [("id", VInt k); ("email", VStr (u_email u));
         ("full_name", VStr (u_full_name u)); ("role", VStr (u_role u));
         ("profile_picture", opt_value VStr (u_profile_picture u))].

Definition course_dict (k : Z) (c : CourseRow) : list (string * value) :=
  [("id", VInt k); ("title", VStr (c_title c));
   ("description", VStr (c_description c));
   ("instructor_id", VInt (c_instructor_id c))].

Definition material_dict (k : Z) (m : MaterialRow) : value :=
  VDict [("id", VInt k); ("course_id", VInt (m_course_id m));
         ("title", VStr (m_title m)); ("file_path", VStr (m_file_path m));
         ("file_type", VStr (m_file_type m));
         ("uploaded_at", VTime (m_uploaded_at m))].

Definition announcement_dict (k : Z) (n : AnnouncementRow) : value :=
  VDict [("id", VInt k); ("course_id", VInt (n_course_id n));
         ("title", VStr (n_title n)); ("content", VStr (n_content n));
         ("created_at", VTime (n_created_at n))].

Definition assignment_dict (k : Z) (a : AssignmentRow) : list (string * value) :=
  [("id", VInt k); ("course_id", VInt (a_course_id a));
   ("title", VStr (a_title a)); ("description", VStr (a_description a));
   ("due_date", opt_value VStr (a_due_date a));
   ("instruction_file", opt_value VStr (a_instruction_file a));
   ("created_at", VTime (a_created_at a))].

Definition submission_dict (k : Z) (r : SubmissionRow) : value :=
  VDict [("id", VInt k); ("assignment_id", VInt (s_assignment_id r));
         ("student_id", VInt (s_student_id r));
         ("file_path", opt_value VStr (s_file_path r));
         ("content", VStr (s_content r));
         ("grade", opt_value VNum (s_grade r));
         ("feedback", opt_value VStr (s_feedback r));
         ("submitted_at", VTime (s_submitted_at r));
         ("graded_at", opt_value VTime (s_graded_at r))].

Definition success (message : string) : value :=
  VDict [("success", VBool true); ("message", VStr message)].

(** The two [except] ladders that end the handlers. *)
Definition internal_error {A} (e : exn) : M A :=
  raise (HTTPException 500 (str e)).

Definition reraise_http {A} (e : exn) : M A :=
  match e with
  | HTTPException _ _ => raise e
  | _ => internal_error e
  end.

(** ** Auth endpoints *)

Definition register (user : UserRegister.t) : M value :=
  try_except
    (let hashed_pw := hash_password (UserRegister.password user) in
     user_id ← execute (insert_user
                  (mkUser (UserRegister.email user) hashed_pw
                          (UserRegister.full_name user)
                          (UserRegister.role user) None));
     mret (VDict [("success", VBool true); ("user_id", VInt user_id);
                  ("message", VStr "User registered successfully")]))
    (fun e =>
       match e with
       | IntegrityError _ => raise (HTTPException 400 "Email already exists")
       | _ => internal_error e
       end).

Definition login (user : UserLogin.t) : M value :=
  try_except
    (let hashed_pw := hash_password (UserLogin.password user) in
     result ← query (fun d =>
       fetchone (select (fun r => u_email r = UserLogin.email user /\
                                  u_password r = hashed_pw) (users d)));
     match result with
     | Some (k, u) =>
         mret (VDict [("success", VBool true); ("user", user_profile k u)])
     | None => raise (HTTPException 401 "Invalid credentials")
     end)
    reraise_http.

(** ** Profile endpoints *)

Definition get_profile (user_id : Z) : M value :=
  try_except
    (result ← query (fun d => rows (users d) !! user_id);
     match result with
     | Some u => mret (user_profile user_id u)
     | None => raise (HTTPException 404 "User not found")
     end)
    internal_error.

(** ** Course endpoints *)

Definition get_course (course_id : Z) (user_id : option Z) : M value :=
  try_except
    (course ← query (fun d =>
       c ← rows (courses d) !! course_id;
       u ← rows (users d) !! c_instructor_id c;
       Some (c, u));
     match course with
     | None => raise (HTTPException 404 "Course not found")
     | Some (c, u) =>
         let course :=
           VDict (course_dict course_id c ++
                  [("instructor_name", VStr (u_full_name u))]) in
         '(is_enrolled, is_instructor) ←
           match user_id with
           | Some uid =>
               if truthy_int user_id then
                 enrollment ← query (fun d =>
                   fetchone (select (fun r => e_course_id r = course_id /\
                                              e_student_id r = uid)
                                    (enrollments d)));
                 mret (bool_decide (is_Some enrollment),
                       bool_decide (c_instructor_id c = uid))
               else mret (false, false)
           | None => mret (false, false)
           end;
         mret (dict_set "is_instructor" (VBool is_instructor)
                 (dict_set "is_enrolled" (VBool is_enrolled) course))
     end)
    reraise_http.

Definition create_course (course : Course.t) (instructor_id : Z) : M value :=
  try_except
    (course_id ← execute (insert_course
                    (mkCourse (Course.title course) (Course.description course)
                              instructor_id));
     mret (VDict [("success", VBool true); ("course_id", VInt course_id)]))
    internal_error.

Definition enroll_course (clk : Clock) (course_id student_id : Z) : M value :=
  try_except
    (_ ← execute (insert_enrollment
            (mkEnrollment course_id student_id (sql_now clk)));
     mret (success "Enrolled successfully"))
    (fun e =>
       match e with
       | IntegrityError _ => raise (HTTPException 400 "Already enrolled")
       | _ => internal_error e
       end).

(** ** Materials endpoints *)

Definition upload_material (clk : Clock) (course_id : Z) (title : string)
    (file : UploadFile.t) : M value :=
  try_except
    (let file_type := classify (UploadFile.filename file) in
     let filename :=
       "material_" +:+ pretty course_id +:+ "_" +:+ py_stamp clk +:+ "_"
       +:+ UploadFile.filename file in
     let file_path := "uploads/materials/" +:+ filename in
     write_file file_path (UploadFile.file file);;
     execute (insert_material
                (mkMaterial course_id title ("/" +:+ file_path) file_type
                            (sql_now clk)));;
     mret (success "Material uploaded"))
    internal_error.

Definition get_material (material_id : Z) : M value :=
  try_except
    (material ← query (fun d => rows (materials d) !! material_id);
     match material with
     | Some m => mret (material_dict material_id m)
     | None => raise (HTTPException 404 "Material not found")
     end)
    reraise_http.

Definition update_material (clk : Clock) (material_id : Z) (title : string)
    (file : option UploadFile.t) : M value :=
  try_except
    (current_material ← query (fun d => rows (materials d) !! material_id);
     match current_material with
     | None => raise (HTTPException 404 "Material not found")
     | Some current =>
         match file with
         | Some f =>
             let old_file_path := lstrip [slash] (m_file_path current) in
             present ← path_exists old_file_path;
             (if present : bool then os_remove old_file_path else mret tt);;
             let file_type := classify (UploadFile.filename f) in
             let filename :=
               "material_" +:+ pretty (m_course_id current) +:+ "_"
               +:+ py_stamp clk +:+ "_" +:+ UploadFile.filename f in
             let file_path := "uploads/materials/" +:+ filename in
             write_file file_path (UploadFile.file f);;
             let file_path := "/" +:+ file_path in
             execute (fun d => Ok (tt, set_materials
               (update_row (fun m => mkMaterial (m_course_id m) title file_path
                                                file_type (m_uploaded_at m))
                           material_id (materials d)) d))
         | None =>
             execute (fun d => Ok (tt, set_materials
               (update_row (fun m => mkMaterial (m_course_id m) title
                                                (m_file_path m) (m_file_type m)
                                                (m_uploaded_at m))
                           material_id (materials d)) d))
         end;;
         mret (success "Material updated")
     end)
    reraise_http.

Definition delete_material (material_id : Z) : M value :=
  try_except
    (material ← query (fun d => rows (materials d) !! material_id);
     match material with
     | Some m =>
         let file_path := lstrip [slash] (m_file_path m) in
         present ← path_exists file_path;
         (if present : bool then os_remove file_path else mret tt);;
         execute (fun d => Ok (tt, set_materials
                    (delete_row material_id (materials d)) d))
     | None => mret tt
     end;;
     mret (success "Material deleted"))
    internal_error.

(** ** Announcements endpoints *)

Definition get_announcement (announcement_id : Z) : M value :=
  try_except
    (announcement ← query (fun d => rows (announcements d) !! announcement_id);
     match announcement with
     | Some n => mret (announcement_dict announcement_id n)
     | None => raise (HTTPException 404 "Announcement not found")
     end)
    reraise_http.

(** ** Assignments endpoints *)

Definition get_assignment_details (assignment_id : Z) (student_id : option Z)
  : M value :=
  try_except
    (assignment ← query (fun d =>
       a ← rows (assignments d) !! assignment_id;
       c ← rows (courses d) !! a_course_id a;
       u ← rows (users d) !! c_instructor_id c;
       Some (VDict (assignment_dict assignment_id a ++
                    [("course_title", VStr (c_title c));
                     ("instructor_name", VStr (u_full_name u))])));
     match assignment with
     | None => raise (HTTPException 404 "Assignment not found")
     | Some assignment =>
         match student_id with
         | Some sid =>
             if truthy_int student_id then
               submission ← query (fun d =>
                 fetchone (select (fun r => s_assignment_id r = assignment_id /\
                                            s_student_id r = sid)
                                  (submissions d)));
               mret (dict_set "submission"
                       (opt_value (fun kr => submission_dict kr.1 kr.2) submission)
                       assignment)
             else mret assignment
         | None => mret assignment
         end
     end)
    reraise_http.

Definition create_assignment (clk : Clock) (course_id : Z)
    (title description : string) (due_date : option string)
    (file : option UploadFile.t) : M value :=
  try_except
    (course ← query (fun d => rows (courses d) !! course_id);
     match course with
     | None =>
         raise (HTTPException 404
                  ("Course with id " +:+ pretty course_id +:+ " not found"))
     | Some _ =>
         file_path ←
           match file with
           | Some f =>
               let filename :=
                 "assignment_" +:+ pretty course_id +:+ "_" +:+ py_stamp clk
                 +:+ "_" +:+ UploadFile.filename f in
               let file_path := "uploads/materials/" +:+ filename in
               write_file file_path (UploadFile.file f);;
               mret (Some ("/" +:+ file_path))
           | None => mret None
           end;
         assignment_id ← execute (insert_assignment
           (mkAssignment course_id title description due_date file_path
                         (sql_now clk)));
         mret (VDict [("success", VBool true);
                      ("assignment_id", VInt assignment_id);
                      ("message", VStr "Assignment created")])
     end)
    reraise_http.

Definition update_assignment (clk : Clock) (assignment_id : Z)
    (title description : string) (due_date : option string)
    (file : option UploadFile.t) : M value :=
  try_except
    (match file with
     | Some f =>
         let filename :=
           "assignment_" +:+ pretty assignment_id +:+ "_" +:+ py_stamp clk
           +:+ "_" +:+ UploadFile.filename f in
         let file_path := "uploads/materials/" +:+ filename in
         write_file file_path (UploadFile.file f);;
         let file_path := "/" +:+ file_path in
         execute (fun d => Ok (tt, set_assignments
           (update_row (fun a => mkAssignment (a_course_id a) title description
                                              due_date (Some file_path)
                                              (a_created_at a))
                       assignment_id (assignments d)) d))
     | None =>
         execute (fun d => Ok (tt, set_assignments
           (update_row (fun a => mkAssignment (a_course_id a) title description
                                              due_date (a_instruction_file a)
                                              (a_created_at a))
                       assignment_id (assignments d)) d))
     end;;
     mret (success "Assignment updated"))
    internal_error.

Definition delete_assignment (assignment_id : Z) : M value :=
  try_except
    (execute (delete_assignment_row assignment_id);;
     mret (success "Assignment deleted"))
    internal_error.

(** ** Submissions endpoints *)

Definition submit_assignment (clk : Clock) (assignment_id student_id : Z)
    (content : string) (file : option UploadFile.t) : M value :=
  try_except
    (file_path ←
       match file with
       | Some f =>
           let filename :=
             "submission_" +:+ pretty assignment_id +:+ "_"
             +:+ pretty student_id +:+ "_" +:+ py_stamp clk +:+ "_"
             +:+ UploadFile.filename f in
           let file_path := "uploads/submissions/" +:+ filename in
           write_file file_path (UploadFile.file f);;
           mret (Some ("/" +:+ file_path))
       | None => mret None
       end;
     execute (upsert_submission (sql_now clk) assignment_id student_id
                                file_path content);;
     mret (success "Assignment submitted"))
    internal_error.


(** ** The constraints of the schema, as predicates on a table *)

(** No two rows agree on the column (or columns) [key]. *)
Definition unique_on {A B} (key : A -> B) (t : Table A) : Prop :=
  forall k1 k2 r1 r2,
    rows t !! k1 = Some r1 -> rows t !! k2 = Some r2 ->
    key r1 = key r2 -> k1 = k2.

Definition enrollment_key (e : EnrollmentRow) : Z * Z :=
  (e_course_id e, e_student_id e).

Definition submission_key (r : SubmissionRow) : Z * Z :=
  (s_assignment_id r, s_student_id r).

(** The paths the store refers to, as the handlers look them up on disk. *)
Definition stored_paths (d : DB) : list string :=
  map (lstrip [slash])
    (omap (fun kr => u_profile_picture kr.2) (map_to_list (rows (users d)))
     ++ map (fun kr => m_file_path kr.2) (map_to_list (rows (materials d)))
     ++ omap (fun kr => a_instruction_file kr.2)
             (map_to_list (rows (assignments d)))
     ++ omap (fun kr => s_file_path kr.2)
             (map_to_list (rows (submissions d)))).

(** A file on disk that no row refers to. *)
Definition orphan (w : World) (p : string) : Prop :=
  is_Some (disk w !! p) /\ p ∉ stored_paths (db w).

Global Instance orphan_dec w p : Decision (orphan w p).
Proof. unfold orphan. apply _. Defined.

(** The world after a request. *)
Definition after {A} (m : M A) (w : World) : World := (m w).2.

(** Whether the file of a request, if it has one, can be written where
    the handler puts it. *)
Definition upload_accepted (path : UploadFile.t -> string)
    (file : option UploadFile.t) : bool :=
  match file with
  | Some f => accepts (lstrip [slash] (path f))
  | None => true
  end.

(** Where [submit_assignment] stores an uploaded file. *)
Definition submission_path (clk : Clock) (assignment_id student_id : Z)
    (f : UploadFile.t) : string :=
  "/uploads/submissions/submission_" +:+ pretty assignment_id +:+ "_"
  +:+ pretty student_id +:+ "_" +:+ py_stamp clk +:+ "_"
  +:+ UploadFile.filename f.

(** Where [upload_material] and [update_material] store an uploaded file. *)
Definition material_path (clk : Clock) (course_id : Z) (f : UploadFile.t)
  : string :=
  "/uploads/materials/material_" +:+ pretty course_id +:+ "_"
  +:+ py_stamp clk +:+ "_" +:+ UploadFile.filename f.

(** ** A small run of the service, for concrete checks *)

Module Scenario.

Definition clk1 : Clock := mkClock 1700000000 "1700000000.25" eq_refl.
Definition clk2 : Clock := mkClock 1700000600 "1700000600.75" eq_refl.

Definition teacher : UserRegister.t :=
  UserRegister.mk "ada@example.org" "s3cret" "Ada Teacher" "instructor".
Definition student : UserRegister.t :=
  UserRegister.mk "sam@example.org" "hunter2" "Sam Student" "student".

Definition pdf_bytes : list Byte.byte := [Byte.x25; Byte.x50; Byte.x44; Byte.x46].
Definition txt_bytes : list Byte.byte := [Byte.x6f; Byte.x6b].

(** Users 1 (the teacher) and 2 (the student). *)
Definition registered : World :=
  after (register student) (after (register teacher) empty_world).

(** Course 1, taught by user 1. *)
Definition with_course : World :=
  after (create_course (Course.mk "Logic" "An introduction") 1) registered.

Definition student_enrolled : World :=
  after (enroll_course clk1 1 2) with_course.

(** The teacher enrolls in their own course. *)
Definition instructor_enrolled : World :=
  after (enroll_course clk1 1 1) with_course.

(** Material 1 of course 1. *)
Definition with_material : World :=
  after (upload_material clk1 1 "Slides" (UploadFile.mk "slides.pdf" pdf_bytes))
        with_course.

(** Assignment 1 of course 1, with an instruction file. *)
Definition with_assignment : World :=
  after (create_assignment clk1 1 "Homework 1" "Prove it" None
           (Some (UploadFile.mk "hw1.pdf" pdf_bytes)))
        student_enrolled.

Definition instruction_file : string :=
  "uploads/materials/assignment_1_1700000000.25_hw1.pdf".

(** Submission 1: the student's answer to assignment 1. *)
Definition with_submission : World :=
  after (submit_assignment clk1 1 2 "first answer"
           (Some (UploadFile.mk "answer.txt" txt_bytes)))
        with_assignment.

(** The rows these requests leave behind. *)
Definition teacher_row : UserRow :=
  mkUser "ada@example.org" (hash_password "s3cret") "Ada Teacher"
         "instructor" None.
Definition course_row : CourseRow := mkCourse "Logic" "An introduction" 1.
Definition enrollment_row : EnrollmentRow := mkEnrollment 1 2 1700000000.
Definition material_row : MaterialRow :=
  mkMaterial 1 "Slides" "/uploads/materials/material_1_1700000000.25_slides.pdf"
             "pdf" 1700000000.
Definition assignment_row : AssignmentRow :=
  mkAssignment 1 "Homework 1" "Prove it" None
               (Some "/uploads/materials/assignment_1_1700000000.25_hw1.pdf")
               1700000000.
Definition submission_row : SubmissionRow :=
  mkSubmission 1 2
    (Some "/uploads/submissions/submission_1_2_1700000000.25_answer.txt")
    "first answer" None None 1700000000 None.

End Scenario.

(** ** The remaining endpoints *)

Definition set_announcements (t : Table AnnouncementRow) (d : DB) : DB :=
  mkDB (users d) (courses d) (enrollments d) (materials d)
       t (assignments d) (submissions d).

(** Modelled from the spec: the schema. An announcement belongs to one
    course. *)
Definition insert_announcement (n : AnnouncementRow) (d : DB)
  : outcome (Z * DB) :=
  if has_id (n_course_id n) (courses d) then
    let '(k, t) := insert_row n (announcements d) in
    Ok (k, set_announcements t d)
  else Raise no_parent_row.

Module Announcement.
Record t : Type := mk {
  title : string;
  content : string
}.
End Announcement.

(** [ORDER BY key DESC].  Rows with equal keys come in an order the store
    does not promise; the merge sort picks one. *)
Definition desc_by {A} (key : A -> Z) : relation A :=
  fun a b => key b <= key a.

Global Instance desc_by_dec {A} (key : A -> Z) a b : Decision (desc_by key a b).
Proof. unfold desc_by. apply _. Defined.

Definition order_by_desc {A} (key : A -> Z) (l : list A) : list A :=
  merge_sort (desc_by key) l.



(** [courses c JOIN users u ON c.instructor_id = u.id] *)
Definition courses_with_instructor (d : DB) : list (Z * CourseRow * UserRow) :=
  omap (fun kc => u ← rows (users d) !! c_instructor_id kc.2;
                  Some (kc.1, kc.2, u))
       (map_to_list (rows (courses d))).

Definition course_listing (k : Z) (c : CourseRow) (u : UserRow)
  : list (string * value) :=
  course_dict k c ++ [("instructor_name", VStr (u_full_name u))].

Definition get_all_courses (user_id : option Z) : M (list value) :=
  try_except
    (match user_id with
     | Some uid =>
         if truthy_int user_id then
           query (fun d =>
             '(k, c, u) ← courses_with_instructor d;
             match select (fun e => e_course_id e = k /\ e_student_id e = uid)
                          (enrollments d) with
             | [] => [VDict (course_listing k c u ++ [("is_enrolled", VInt 0)])]
             | es => (fun _ => VDict (course_listing k c u ++
                                      [("is_enrolled", VInt 1)])) <$> es
             end)
         else
           query (fun d =>
             (fun r => VDict (course_listing r.1.1 r.1.2 r.2))
               <$> courses_with_instructor d)
     | None =>
         query (fun d =>
           (fun r => VDict (course_listing r.1.1 r.1.2 r.2))
             <$> courses_with_instructor d)
     end)
    internal_error.

Definition get_instructor_courses (instructor_id : Z) : M (list value) :=
  try_except
    (query (fun d =>
       (fun kc => VDict (course_dict kc.1 kc.2))
         <$> select (fun c => c_instructor_id c = instructor_id) (courses d)))
    internal_error.

(** The enrollments of a student, newest first, each with its course and
    the course's instructor. *)
Definition enrolled_courses_rows (student_id : Z) (d : DB)
  : list (Z * CourseRow * UserRow) :=
  omap (fun ke =>
          c ← rows (courses d) !! e_course_id ke.2;
          u ← rows (users d) !! c_instructor_id c;
          Some (e_course_id ke.2, c, u))
       (order_by_desc (fun ke => e_enrolled_at ke.2)
          (select (fun e => e_student_id e = student_id) (enrollments d))).

Definition get_enrolled_courses (student_id : Z) : M (list value) :=
  try_except
    (query (fun d =>
       (fun r => VDict (course_listing r.1.1 r.1.2 r.2))
         <$> enrolled_courses_rows student_id d))
    internal_error.

Definition materials_rows (course_id : Z) (d : DB) : list (Z * MaterialRow) :=
  order_by_desc (fun km => m_uploaded_at km.2)
    (select (fun m => m_course_id m = course_id) (materials d)).

Definition get_materials (course_id : Z) : M (list value) :=
  try_except
    (query (fun d =>
       (fun km => material_dict km.1 km.2) <$> materials_rows course_id d))
    internal_error.

Definition announcements_rows (course_id : Z) (d : DB)
  : list (Z * AnnouncementRow) :=
  order_by_desc (fun kn => n_created_at kn.2)
    (select (fun n => n_course_id n = course_id) (announcements d)).

Definition get_announcements (course_id : Z) : M (list value) :=
  try_except
    (query (fun d =>
       (fun kn => announcement_dict kn.1 kn.2)
         <$> announcements_rows course_id d))
    internal_error.

Definition create_announcement (clk : Clock) (course_id : Z)
    (announcement : Announcement.t) : M value :=
  try_except
    (execute (insert_announcement
                (mkAnnouncement course_id (Announcement.title announcement)
                                (Announcement.content announcement)
                                (sql_now clk)));;
     mret (success "Announcement created"))
    internal_error.

Definition update_announcement (announcement_id : Z)
    (announcement : Announcement.t) : M value :=
  try_except
    (execute (fun d => Ok (tt, set_announcements
       (update_row (fun n => mkAnnouncement (n_course_id n)
                                            (Announcement.title announcement)
                                            (Announcement.content announcement)
                                            (n_created_at n))
                   announcement_id (announcements d)) d));;
     mret (success "Announcement updated"))
    internal_error.

Definition delete_announcement (announcement_id : Z) : M value :=
  try_except
    (execute (fun d => Ok (tt, set_announcements
       (delete_row announcement_id (announcements d)) d));;
     mret (success "Announcement deleted"))
    internal_error.

(** [submissions s JOIN users u ON s.student_id = u.id], newest first. *)
Definition submissions_rows (assignment_id : Z) (d : DB)
  : list (Z * SubmissionRow * UserRow) :=
  omap (fun ks => u ← rows (users d) !! s_student_id ks.2;
                  Some (ks.1, ks.2, u))
       (order_by_desc (fun ks => s_submitted_at ks.2)
          (select (fun r => s_assignment_id r = assignment_id) (submissions d))).

Definition get_submissions (assignment_id : Z) : M (list value) :=
  try_except
    (query (fun d =>
       (fun r => dict_set "student_email" (VStr (u_email r.2))
                   (dict_set "student_name" (VStr (u_full_name r.2))
                      (submission_dict r.1.1 r.1.2)))
         <$> submissions_rows assignment_id d))
    internal_error.

(** Where [create_assignment] and [update_assignment] store an uploaded
    file; [owner_id] is the course id for the one, the assignment id for
    the other. *)
Definition assignment_path (clk : Clock) (owner_id : Z) (f : UploadFile.t)
  : string :=
  "/uploads/materials/assignment_" +:+ pretty owner_id +:+ "_"
  +:+ py_stamp clk +:+ "_" +:+ UploadFile.filename f.

(** The characters of a [hexdigest()]. *)
Definition lowercase_hex : list Ascii.ascii :=
  String.list_ascii_of_string "0123456789abcdef".

(** ** A second run, through the remaining endpoints *)

Module Tour.

Definition clk1 : Clock := mkClock 1700000000 "1700000000.25" eq_refl.
Definition clk2 : Clock := mkClock 1700000600 "1700000600.75" eq_refl.
Definition clk3 : Clock := mkClock 1700001200 "1700001200.5" eq_refl.

Definition mp4_bytes : list Byte.byte := [Byte.x00; Byte.x00; Byte.x00; Byte.x18].

Definition ada : UserRegister.t :=
  UserRegister.mk "ada@example.org" "s3cret" "Ada Teacher" "instructor".
Definition sam : UserRegister.t :=
  UserRegister.mk "sam@example.org" "hunter2" "Sam Student" "student".

(** Users 1 (Ada) and 2 (Sam). *)
Definition people : World :=
  after (register sam) (after (register ada) empty_world).

(** Courses 1 and 2, both taught by Ada. *)
Definition two_courses : World :=
  after (create_course (Course.mk "Proofs" "Natural deduction") 1)
    (after (create_course (Course.mk "Logic" "An introduction") 1) people).

(** Sam joins course 1. *)
Definition sam_enrolled : World := after (enroll_course clk1 1 2) two_courses.

(** Materials 1 and 2 of course 1, the second uploaded later. *)
Definition two_materials : World :=
  after (upload_material clk2 1 "Lecture" (UploadFile.mk "week1.MP4" mp4_bytes))
    (after (upload_material clk1 1 "Slides"
              (UploadFile.mk "slides.pdf" Scenario.pdf_bytes)) sam_enrolled).

(** Announcements 1 and 2 of course 1. *)
Definition two_announcements : World :=
  after (create_announcement clk2 1 (Announcement.mk "Room" "Now in B12"))
    (after (create_announcement clk1 1 (Announcement.mk "Welcome" "Hello all"))
           two_materials).

(** Assignment 1 of course 1, with an instruction file. *)
Definition one_assignment : World :=
  after (create_assignment clk1 1 "Homework 1" "Prove it" (Some "2024-01-31")
           (Some (UploadFile.mk "hw1.pdf" Scenario.pdf_bytes)))
        two_announcements.

(** Sam hands in an answer. *)
Definition one_submission : World :=
  after (submit_assignment clk2 1 2 "first answer"
           (Some (UploadFile.mk "answer.txt" Scenario.txt_bytes)))
        one_assignment.

End Tour.

(** * Properties *)

Example sha256_empty :
  SHA256.hexdigest "" =
  "e3b0c44298fc1c149afbf4c8996fb92427ae41e4649b934ca495991b7852b855".
Proof. vm_compute. reflexivity. Qed.

Example sha256_abc :
  SHA256.hexdigest "abc" =
  "ba7816bf8f01cfea414140de5dae2223b00361a396177a9cb410ff61f20015ad".
Proof. vm_compute. reflexivity. Qed.

Example sha256_two_blocks :
  SHA256.hexdigest "abcdbcdecdefdefgefghfghighijhijkijkljklmklmnlmnomnopnopq" =
  "248d6a61d20638b8e5c026930c3e6039a33ce45964ff2167f6ecedd419db06c1".
Proof. vm_compute. reflexivity. Qed.

Example classify_examples :
  map classify ["a.PDF"; "x.tar.Mp4"; ".pdf"; "d.pdf/x"; "notes.txt"] =
  ["pdf"; "video"; "other"; "other"; "other"].
Proof. vm_compute. reflexivity. Qed.

(** ** Selecting rows *)

Section Select.
Context {A : Type} (P : A -> Prop) `{!forall r, Decision (P r)}.

Lemma elem_of_select (t : Table A) k r :
  (k, r) ∈ select P t <-> rows t !! k = Some r /\ P r.
Proof.
  unfold select. rewrite list_elem_of_filter, elem_of_map_to_list.
  simpl. tauto.
Qed.

Lemma select_nil (t : Table A) :
  select P t = [] <-> forall k r, rows t !! k = Some r -> ~ P r.
Proof.
  split.
  - intros Hnil k r Hk HP.
    assert (Hin : (k, r) ∈ select P t) by (apply elem_of_select; auto).
    rewrite Hnil in Hin. by apply elem_of_nil in Hin.
  - intros Hno. destruct (select P t) as [|[k r] l] eqn:E; [done|].
    assert (Hin : (k, r) ∈ select P t) by (rewrite E; left).
    apply elem_of_select in Hin as [Hk HP]. by destruct (Hno k r).
Qed.

Lemma fetchone_select_Some (t : Table A) k r :
  fetchone (select P t) = Some (k, r) -> rows t !! k = Some r /\ P r.
Proof.
  intros Hone. apply elem_of_select. unfold fetchone in Hone.
  by apply head_Some_elem_of.
Qed.

Lemma fetchone_select_None (t : Table A) :
  fetchone (select P t) = None <-> forall k r, rows t !! k = Some r -> ~ P r.
Proof. unfold fetchone. rewrite head_None. apply select_nil. Qed.

Lemma NoDup_select (t : Table A) : NoDup (select P t).
Proof. unfold select. apply NoDup_filter, NoDup_map_to_list. Qed.

(** With a unique key behind the clause, the row it names is the whole
    result. *)
Lemma select_unique (t : Table A) k r :
  rows t !! k = Some r -> P r ->
  (forall k' r', rows t !! k' = Some r' -> P r' -> k' = k) ->
  select P t = [(k, r)].
Proof.
  intros Hk HP Huniq.
  assert (Hall : forall x, x ∈ select P t -> x = (k, r)).
  { intros [k' r'] Hin. apply elem_of_select in Hin as [Hk' HP'].
    assert (k' = k) by eauto. subst k'. congruence. }
  assert (Hin : (k, r) ∈ select P t) by (apply elem_of_select; auto).
  pose proof (NoDup_select t) as Hnd.
  destruct (select P t) as [|x [|y l]].
  - by apply elem_of_nil in Hin.
  - f_equal. apply Hall. left.
  - exfalso. apply NoDup_cons in Hnd as [Hx _]. apply Hx.
    rewrite (Hall x), (Hall y); [left | right; left | left].
Qed.
End Select.

(** ** Running a handler *)

(* [accepts] is decided on closed paths only. *)
Global Arguments accepts : simpl never.

Ltac unfold_monad :=
  unfold try_except, mbind, M_bind, bind, mret, M_ret, ret, raise,
    internal_error, reraise_http, raise, query, execute,
    path_exists, os_remove, write_file.

Ltac run_handler := unfold_monad; simpl.

(* Settle the test a write makes, from what is known of the upload. *)
Ltac settle_write H :=
  match goal with
  | |- context [accepts ?p] =>
      match type of H with
      | _ = ?b => replace (accepts p) with b by (symmetry; exact H)
      end
  end.

(** ** Fetching one resource *)

Lemma get_profile_missing w user_id :
  rows (users (db w)) !! user_id = None ->
  get_profile user_id w = (Raise (HTTPException 500 "404: User not found"), w).
Proof. intros Hno. unfold get_profile. run_handler. by rewrite Hno. Qed.

Lemma get_material_missing w material_id :
  rows (materials (db w)) !! material_id = None ->
  get_material material_id w =
  (Raise (HTTPException 404 "Material not found"), w).
Proof. intros Hno. unfold get_material. run_handler. by rewrite Hno. Qed.

Lemma get_announcement_missing w announcement_id :
  rows (announcements (db w)) !! announcement_id = None ->
  get_announcement announcement_id w =
  (Raise (HTTPException 404 "Announcement not found"), w).
Proof. intros Hno. unfold get_announcement. run_handler. by rewrite Hno. Qed.

Lemma get_course_missing w course_id user_id :
  rows (courses (db w)) !! course_id = None ->
  get_course course_id user_id w =
  (Raise (HTTPException 404 "Course not found"), w).
Proof. intros Hno. unfold get_course. run_handler. by rewrite Hno. Qed.

Lemma get_assignment_details_missing w assignment_id student_id :
  rows (assignments (db w)) !! assignment_id = None ->
  get_assignment_details assignment_id student_id w =
  (Raise (HTTPException 404 "Assignment not found"), w).
Proof.
  intros Hno. unfold get_assignment_details. run_handler. by rewrite Hno.
Qed.

(** ** Deleting a material *)

Lemma world_eta w : mkWorld (db w) (disk w) = w.
Proof. by destruct w. Qed.

(** C10: deleting a material id that has no row answers the success
    envelope and changes neither the store nor the upload directory. *)
Theorem delete_material_missing w material_id :
  rows (materials (db w)) !! material_id = None ->
  delete_material material_id w = (Ok (success "Material deleted"), w) /\
  dict_get "success" (success "Material deleted") = Some (VBool true).
Proof.
  intros Hno. split; [|reflexivity].
  unfold delete_material. run_handler. by rewrite Hno.
Qed.

(** C8: deleting an existing material removes the file its row names (a
    file that is already gone is no error) and then the row; fetching the
    material afterwards is answered with 404. *)
Theorem delete_material_then_get w material_id m :
  rows (materials (db w)) !! material_id = Some m ->
  exists w',
    delete_material material_id w = (Ok (success "Material deleted"), w') /\
    disk w' = delete (lstrip [slash] (m_file_path m)) (disk w) /\
    rows (materials (db w')) = delete material_id (rows (materials (db w))) /\
    get_material material_id w' =
    (Raise (HTTPException 404 "Material not found"), w').
Proof.
  intros Hm. unfold delete_material. run_handler. rewrite Hm.
  set (p := lstrip [slash] (m_file_path m)).
  destruct (disk w !! p) as [bytes|] eqn:Hp.
  - rewrite bool_decide_eq_true_2 by eauto. simpl. rewrite Hp. simpl.
    eexists. split; [reflexivity|]. cbn. repeat split.
    apply get_material_missing. cbn. apply lookup_delete_eq.
  - rewrite bool_decide_eq_false_2 by apply is_Some_None. simpl.
    eexists. split; [reflexivity|]. cbn. repeat split.
    + symmetry. by apply delete_id.
    + apply get_material_missing. cbn. apply lookup_delete_eq.
Qed.

(** ** Registration and login *)

(** C5: registering an email that a users row already holds is answered
    with 400 (not the catch-all 500), and the world, the users table with
    it, stays as it was. *)
Theorem register_duplicate_email w user k u :
  rows (users (db w)) !! k = Some u ->
  u_email u = UserRegister.email user ->
  register user w = (Raise (HTTPException 400 "Email already exists"), w) /\
  status_of (register user w).1 = 400 /\
  users (db (after (register user) w)) = users (db w).
Proof.
  intros Hk Hmail.
  assert (Hrun : register user w =
                 (Raise (HTTPException 400 "Email already exists"), w)).
  { unfold register. run_handler. unfold insert_user. simpl.
    destruct (select _ (users (db w))) as [|kr l] eqn:Hsel; [|done].
    exfalso. eapply select_nil in Hsel; eauto. }
  unfold after. by rewrite Hrun.
Qed.

Lemma login_found w user k u :
  fetchone (select (fun r => u_email r = UserLogin.email user /\
                             u_password r = hash_password (UserLogin.password user))
                   (users (db w))) = Some (k, u) ->
  login user w =
  (Ok (VDict [("success", VBool true); ("user", user_profile k u)]), w).
Proof. intros Hone. unfold login. run_handler. by rewrite Hone. Qed.

Lemma login_not_found w user :
  fetchone (select (fun r => u_email r = UserLogin.email user /\
                             u_password r = hash_password (UserLogin.password user))
                   (users (db w))) = None ->
  login user w = (Raise (HTTPException 401 "Invalid credentials"), w).
Proof. intros Hone. unfold login. run_handler. by rewrite Hone. Qed.

(** C6: login answers 401 exactly when no users row has both the given
    email and the digest of the given password; when a row has both, the
    answer carries the id, email, full name, role and profile picture of
    such a row (of the one row that matches, emails being unique) and no
    password. *)
Theorem login_outcome w user :
  let matching k u :=
    rows (users (db w)) !! k = Some u /\
    u_email u = UserLogin.email user /\
    u_password u = hash_password (UserLogin.password user) in
  let answer k u :=
    VDict [("success", VBool true);
           ("user", VDict [("id", VInt k);
                           ("email", VStr (u_email u));
                           ("full_name", VStr (u_full_name u));
                           ("role", VStr (u_role u));
                           ("profile_picture",
                            opt_value VStr (u_profile_picture u))])] in
  ((login user w).1 = Raise (HTTPException 401 "Invalid credentials") <->
   ~ exists k u, matching k u) /\
  ((exists k u, matching k u) ->
   exists k u, matching k u /\ login user w = (Ok (answer k u), w)) /\
  (unique_on u_email (users (db w)) ->
   forall k u, matching k u -> login user w = (Ok (answer k u), w)).
Proof.
  intros matching answer.
  destruct (fetchone (select (fun r => u_email r = UserLogin.email user /\
              u_password r = hash_password (UserLogin.password user))
              (users (db w)))) as [[k u]|] eqn:Hone.
  - pose proof (login_found _ _ _ _ Hone) as Hrun.
    apply fetchone_select_Some in Hone as [Hk [Hmail Hpw]].
    split; [|split].
    + rewrite Hrun. simpl. split; [done|]. intros Hno. destruct Hno.
      exists k, u. done.
    + intros _. exists k, u. done.
    + intros Huniq k' u' (Hk' & Hmail' & Hpw').
      assert (k' = k) by (apply (Huniq k' k u' u); congruence).
      subst k'. assert (u' = u) by congruence. by subst u'.
  - pose proof (login_not_found _ _ Hone) as Hrun.
    rewrite fetchone_select_None in Hone.
    assert (Hno : ~ exists k u, matching k u).
    { intros (k & u & Hk & Hmail & Hpw). by apply (Hone k u). }
    split; [|split].
    + by rewrite Hrun.
    + intros Hyes. by destruct Hno.
    + intros _ k u Hyes. destruct Hno. by exists k, u.
Qed.

(** ** Enrollment *)

(** C7: enrolling a pair that already has an enrollments row is answered
    with 400 and leaves the world, the enrollments table with it, as it
    was; under the unique key that row stays the only one of the pair. *)
Theorem enroll_course_twice w clk course_id student_id k e :
  rows (enrollments (db w)) !! k = Some e ->
  e_course_id e = course_id ->
  e_student_id e = student_id ->
  enroll_course clk course_id student_id w =
  (Raise (HTTPException 400 "Already enrolled"), w) /\
  enrollments (db (after (enroll_course clk course_id student_id) w)) =
  enrollments (db w) /\
  (unique_on enrollment_key (enrollments (db w)) ->
   select (fun r => e_course_id r = course_id /\ e_student_id r = student_id)
          (enrollments (db (after (enroll_course clk course_id student_id) w)))
   = [(k, e)]).
Proof.
  intros Hk Hc Hs.
  assert (Hrun : enroll_course clk course_id student_id w =
                 (Raise (HTTPException 400 "Already enrolled"), w)).
  { unfold enroll_course. run_handler. unfold insert_enrollment. simpl.
    destruct (select _ (enrollments (db w))) as [|kr l] eqn:Hsel; [|done].
    exfalso. eapply select_nil in Hsel; eauto. }
  unfold after. rewrite Hrun. simpl. repeat split.
  intros Huniq. apply select_unique; [done..|].
  intros k' e' Hk' [Hc' Hs']. apply (Huniq k' k e' e); [done..|].
  unfold enrollment_key. congruence.
Qed.

(** ** Unique keys are kept *)

Lemma unique_on_insert {A B} (key : A -> B) (t : Table A) r :
  unique_on key t ->
  (forall k r', rows t !! k = Some r' -> key r' <> key r) ->
  unique_on key (insert_row r t).2.
Proof.
  intros Huniq Hfresh k1 k2 r1 r2. simpl.
  rewrite !lookup_insert. repeat case_decide; subst; intros H1 H2 Hkey.
  - done.
  - exfalso. apply (Hfresh k2 r2); congruence.
  - exfalso. apply (Hfresh k1 r1); congruence.
  - by apply (Huniq k1 k2 r1 r2).
Qed.

Lemma unique_on_update {A B} (key : A -> B) (f : A -> A) (t : Table A) k :
  unique_on key t ->
  (forall r, key (f r) = key r) ->
  unique_on key (update_row f k t).
Proof.
  intros Huniq Hsame k1 k2 r1 r2. simpl.
  rewrite !lookup_alter.
  repeat case_decide; subst; try done;
    destruct (rows t !! k1) as [x1|] eqn:E1; simpl; try done;
    destruct (rows t !! k2) as [x2|] eqn:E2; simpl; try done;
    intros [= <-] [= <-]; rewrite ?Hsame; intros Hkey;
    by apply (Huniq k1 k2 x1 x2).
Qed.

Lemma register_keeps_unique_email w user :
  unique_on u_email (users (db w)) ->
  unique_on u_email (users (db (after (register user) w))).
Proof.
  intros Huniq. unfold after, register. run_handler. unfold insert_user.
  destruct (select _ (users (db w))) as [|kr l] eqn:Hsel; simpl; [|done].
  apply (unique_on_insert u_email); [done|].
  intros k r' Hk Hmail. rewrite select_nil in Hsel. by apply (Hsel k r').
Qed.

Lemma enroll_course_keeps_unique w clk course_id student_id :
  unique_on enrollment_key (enrollments (db w)) ->
  unique_on enrollment_key
    (enrollments (db (after (enroll_course clk course_id student_id) w))).
Proof.
  intros Huniq. unfold after, enroll_course. run_handler.
  unfold insert_enrollment. simpl.
  destruct (select _ (enrollments (db w))) as [|kr l] eqn:Hsel; simpl; [|done].
  destruct (has_id course_id _ && has_id student_id _); simpl; [|done].
  apply (unique_on_insert enrollment_key); [done|].
  intros k r' Hk [= Hc Hs]. simpl in *.
  rewrite select_nil in Hsel. by apply (Hsel k r').
Qed.

(** ** Submitting *)

Lemma alter_present {A} (f : A -> A) (m : gmap Z A) k r :
  m !! k = Some r -> alter f k m = <[k := f r]> m.
Proof.
  intros Hk. apply map_eq. intros i.
  rewrite lookup_alter, lookup_insert. case_decide; subst; [|done].
  by rewrite Hk.
Qed.

(** A submit whose upload is refused is answered with 500 and changes
    nothing. *)
Lemma submit_assignment_refused w clk assignment_id student_id content file :
  upload_accepted (submission_path clk assignment_id student_id) file = false ->
  exists detail,
    submit_assignment clk assignment_id student_id content file w =
    (Raise (HTTPException 500 detail), w).
Proof.
  intros Hacc. unfold submit_assignment.
  destruct file as [f|]; [|done].
  run_handler. settle_write Hacc. by eexists.
Qed.

Lemma submit_assignment_ok_accepted w clk assignment_id student_id content file v :
  (submit_assignment clk assignment_id student_id content file w).1 = Ok v ->
  upload_accepted (submission_path clk assignment_id student_id) file = true.
Proof.
  intros Hok.
  destruct (upload_accepted _ file) eqn:Hacc; [done|].
  destruct (submit_assignment_refused w clk assignment_id student_id content
              file Hacc) as [detail Hrun].
  by rewrite Hrun in Hok.
Qed.

(** Submitting for a pair that already has a submissions row takes the
    update path of the upsert. *)
Lemma submit_assignment_existing_row w clk assignment_id student_id content file k r :
  upload_accepted (submission_path clk assignment_id student_id) file = true ->
  unique_on submission_key (submissions (db w)) ->
  rows (submissions (db w)) !! k = Some r ->
  s_assignment_id r = assignment_id ->
  s_student_id r = student_id ->
  let r' :=
    mkSubmission assignment_id student_id
      (submission_path clk assignment_id student_id <$> file) content
      (s_grade r) (s_feedback r) (sql_now clk) (s_graded_at r) in
  let w' := after (submit_assignment clk assignment_id student_id content file) w in
  (submit_assignment clk assignment_id student_id content file w).1 =
  Ok (success "Assignment submitted") /\
  rows (submissions (db w')) = <[k := r']> (rows (submissions (db w))) /\
  size (rows (submissions (db w'))) = size (rows (submissions (db w))) /\
  select (fun x => s_assignment_id x = assignment_id /\
                   s_student_id x = student_id) (submissions (db w')) =
  [(k, r')] /\
  unique_on submission_key (submissions (db w')).
Proof.
  intros Hacc Huniq Hk Ha Hs r' w'.
  assert (Hsel : select (fun x => s_assignment_id x = assignment_id /\
                                  s_student_id x = student_id)
                        (submissions (db w)) = [(k, r)]).
  { apply select_unique; [done..|].
    intros k' x Hk' [Ha' Hs']. apply (Huniq k' k x r); [done..|].
    unfold submission_key. congruence. }
  assert (Hrun : submit_assignment clk assignment_id student_id content file w =
    (Ok (success "Assignment submitted"),
     mkWorld
       (set_submissions
          (mkTable (<[k := r']> (rows (submissions (db w))))
                   (next_id (submissions (db w)))) (db w))
       (match file with
        | Some f =>
            <[lstrip [slash] (submission_path clk assignment_id student_id f)
              := UploadFile.file f]> (disk w)
        | None => disk w
        end))).
  { unfold submit_assignment. destruct file as [f|];
      run_handler; try settle_write Hacc;
      unfold upsert_submission; simpl; rewrite Hsel; simpl;
      unfold update_row; rewrite (alter_present _ _ _ _ Hk);
      subst r'; simpl; rewrite Ha, Hs; reflexivity. }
  subst w'. unfold after. rewrite Hrun. simpl.
  assert (Huniq' : unique_on submission_key
            (mkTable (<[k := r']> (rows (submissions (db w))))
                     (next_id (submissions (db w))))).
  { intros k1 k2 r1 r2. simpl. rewrite !lookup_insert.
    repeat case_decide; subst k1 || subst k2 || idtac; try done.
    - intros [= <-] H2 Hkey. apply (Huniq k k2 r r2); [done..|].
      unfold submission_key in *. simpl in Hkey. congruence.
    - intros H1 [= <-] Hkey. apply (Huniq k1 k r1 r); [done..|].
      unfold submission_key in *. simpl in Hkey. congruence.
    - apply Huniq. }
  repeat split.
  - apply map_size_insert_Some. eauto.
  - apply select_unique; simpl.
    + apply lookup_insert_eq.
    + done.
    + intros k' x Hk' [Ha' Hs'].
      apply (Huniq' k' k x r'); simpl; [done|apply lookup_insert_eq|].
      unfold submission_key. simpl. congruence.
  - done.
Qed.

Lemma submit_assignment_first w clk assignment_id student_id content file :
  upload_accepted (submission_path clk assignment_id student_id) file = true ->
  (forall k r, rows (submissions (db w)) !! k = Some r ->
               ~ (s_assignment_id r = assignment_id /\ s_student_id r = student_id)) ->
  is_Some (rows (assignments (db w)) !! assignment_id) ->
  is_Some (rows (users (db w)) !! student_id) ->
  let w' := after (submit_assignment clk assignment_id student_id content file) w in
  (submit_assignment clk assignment_id student_id content file w).1 =
  Ok (success "Assignment submitted") /\
  rows (submissions (db w')) =
  <[next_id (submissions (db w)) :=
      mkSubmission assignment_id student_id
        (submission_path clk assignment_id student_id <$> file) content
        None None (sql_now clk) None]> (rows (submissions (db w))).
Proof.
  intros Hacc Hnone Ha Hu w'. subst w'. unfold after, submit_assignment.
  apply (select_nil (fun x => s_assignment_id x = assignment_id /\
                              s_student_id x = student_id)) in Hnone.
  destruct file as [f|]; run_handler; try settle_write Hacc;
    unfold upsert_submission; simpl;
    rewrite Hnone; unfold has_id; simpl;
    rewrite !bool_decide_eq_true_2 by done; simpl; done.
Qed.

(** A submit that is answered with success leaves a row for the pair, and
    the key unique. *)
Lemma submit_assignment_leaves_row w clk assignment_id student_id content file v :
  unique_on submission_key (submissions (db w)) ->
  (submit_assignment clk assignment_id student_id content file w).1 = Ok v ->
  let w' := after (submit_assignment clk assignment_id student_id content file) w in
  unique_on submission_key (submissions (db w')) /\
  exists k r, rows (submissions (db w')) !! k = Some r /\
              s_assignment_id r = assignment_id /\ s_student_id r = student_id.
Proof.
  intros Huniq Hok w'.
  pose proof (submit_assignment_ok_accepted _ _ _ _ _ _ _ Hok) as Hacc.
  destruct (select (fun x => s_assignment_id x = assignment_id /\
                             s_student_id x = student_id)
                   (submissions (db w))) as [|[k r] l] eqn:Hsel.
  - pose proof (proj1 (select_nil _ _) Hsel) as Hnone.
    assert (Hparents : is_Some (rows (assignments (db w)) !! assignment_id) /\
                       is_Some (rows (users (db w)) !! student_id)).
    { revert Hok. unfold submit_assignment.
      destruct file as [f|]; run_handler; try settle_write Hacc;
        unfold upsert_submission; simpl;
        rewrite Hsel; unfold has_id; simpl;
        destruct (bool_decide (is_Some (rows (assignments (db w)) !! assignment_id)))
          eqn:Ea; simpl; try discriminate;
        destruct (bool_decide (is_Some (rows (users (db w)) !! student_id)))
          eqn:Eu; simpl; try discriminate;
        intros _; apply bool_decide_eq_true in Ea, Eu; done. }
    destruct Hparents as [Ha Hu].
    destruct (submit_assignment_first w clk assignment_id student_id content
                file Hacc Hnone Ha Hu) as [_ Hrows].
    fold w' in Hrows. split.
    + intros k1 k2 r1 r2. rewrite Hrows.
      apply (unique_on_insert submission_key (submissions (db w)) _ Huniq).
      intros k r Hk [= Ha' Hs']. by apply (Hnone k r).
    + eexists _, _. rewrite Hrows. split; [apply lookup_insert_eq|done].
  - assert (Hin : (k, r) ∈ select (fun x => s_assignment_id x = assignment_id /\
                                            s_student_id x = student_id)
                                  (submissions (db w))) by (rewrite Hsel; left).
    apply elem_of_select in Hin as [Hk [Ha Hs]].
    destruct (submit_assignment_existing_row w clk assignment_id student_id
                content file k r Hacc Huniq Hk Ha Hs)
      as (_ & Hrows & _ & _ & Huniq').
    fold w' in Hrows, Huniq'. split; [done|].
    eexists k, _. rewrite Hrows. split; [apply lookup_insert_eq|done].
Qed.

(** C4: a second submit for the same assignment and student, after one
    that succeeded, never adds a row.  When it is answered with success,
    the row of the pair has the new file path and content and the current
    time as [submitted_at], keeps its grade, and is the only row of the
    pair; a request without a file is answered so.  When it is answered
    with an error (the upload could not be written), the submissions table
    is as it was. *)
Theorem submit_assignment_again w clk1 clk2 assignment_id student_id
    content1 file1 content2 file2 v :
  unique_on submission_key (submissions (db w)) ->
  (submit_assignment clk1 assignment_id student_id content1 file1 w).1 = Ok v ->
  let w1 := after (submit_assignment clk1 assignment_id student_id content1 file1) w in
  let w2 := after (submit_assignment clk2 assignment_id student_id content2 file2) w1 in
  size (rows (submissions (db w2))) = size (rows (submissions (db w1))) /\
  (file2 = None ->
   (submit_assignment clk2 assignment_id student_id content2 file2 w1).1 =
   Ok (success "Assignment submitted")) /\
  (forall e,
     (submit_assignment clk2 assignment_id student_id content2 file2 w1).1 =
     Raise e -> w2 = w1) /\
  exists k r1,
    select (fun x => s_assignment_id x = assignment_id /\
                     s_student_id x = student_id) (submissions (db w1)) =
    [(k, r1)] /\
    forall v2,
      (submit_assignment clk2 assignment_id student_id content2 file2 w1).1 =
      Ok v2 ->
      let r2 :=
        mkSubmission assignment_id student_id
          (submission_path clk2 assignment_id student_id <$> file2) content2
          (s_grade r1) (s_feedback r1) (sql_now clk2) (s_graded_at r1) in
      v2 = success "Assignment submitted" /\
      rows (submissions (db w2)) = <[k := r2]> (rows (submissions (db w1))) /\
      select (fun x => s_assignment_id x = assignment_id /\
                       s_student_id x = student_id) (submissions (db w2)) =
      [(k, r2)].
Proof.
  intros Huniq Hok w1 w2.
  destruct (submit_assignment_leaves_row w clk1 assignment_id student_id
              content1 file1 v Huniq Hok) as (Huniq1 & k & r1 & Hk & Ha & Hs).
  fold w1 in Huniq1, Hk.
  assert (Hsel1 : select (fun x => s_assignment_id x = assignment_id /\
                                   s_student_id x = student_id)
                         (submissions (db w1)) = [(k, r1)]).
  { apply select_unique; [done..|].
    intros k' x Hk' [Ha' Hs']. apply (Huniq1 k' k x r1); [done..|].
    unfold submission_key. congruence. }
  destruct (upload_accepted (submission_path clk2 assignment_id student_id) file2)
    eqn:Hacc.
  - destruct (submit_assignment_existing_row w1 clk2 assignment_id student_id
                content2 file2 k r1 Hacc Huniq1 Hk Ha Hs)
      as (Hrun & Hrows & Hsize & Honly & _).
    fold w2 in Hrows, Hsize, Honly.
    split; [done|]. split; [done|]. split.
    { intros e He. by rewrite Hrun in He. }
    exists k, r1. split; [done|]. intros v2 Hv2. rewrite Hrun in Hv2.
    by injection Hv2 as <-.
  - destruct (submit_assignment_refused w1 clk2 assignment_id student_id
                content2 file2 Hacc) as [detail Hrun].
    assert (Hw2 : w2 = w1) by (subst w2; unfold after; by rewrite Hrun).
    split; [by rewrite Hw2|]. split.
    { intros ->. done. }
    split; [done|].
    exists k, r1. split; [done|]. intros v2 Hv2. by rewrite Hrun in Hv2.
Qed.

(** ** Deleting an assignment *)

(** C9: deleting an existing assignment removes its row and every
    submissions row that references it, and no other submissions row. *)
Theorem delete_assignment_cascades w assignment_id a :
  rows (assignments (db w)) !! assignment_id = Some a ->
  let w' := after (delete_assignment assignment_id) w in
  (delete_assignment assignment_id w).1 = Ok (success "Assignment deleted") /\
  rows (assignments (db w')) = delete assignment_id (rows (assignments (db w))) /\
  (forall k r, rows (submissions (db w')) !! k = Some r ->
               s_assignment_id r <> assignment_id) /\
  (forall k r, rows (submissions (db w)) !! k = Some r ->
               s_assignment_id r <> assignment_id ->
               rows (submissions (db w')) !! k = Some r).
Proof.
  intros Ha w'. subst w'. unfold after, delete_assignment. run_handler.
  unfold delete_assignment_row. rewrite Ha. simpl. repeat split.
  - intros k r Hk. by apply map_lookup_filter_Some in Hk as [_ Hne].
  - intros k r Hk Hne. by apply map_lookup_filter_Some.
Qed.

(** ** Course detail *)

Lemma get_course_found w course_id user_id c u :
  rows (courses (db w)) !! course_id = Some c ->
  rows (users (db w)) !! c_instructor_id c = Some u ->
  let flags :=
    match user_id with
    | Some uid =>
        if truthy_int user_id then
          (bool_decide (is_Some (fetchone
             (select (fun r => e_course_id r = course_id /\ e_student_id r = uid)
                     (enrollments (db w))))),
           bool_decide (c_instructor_id c = uid))
        else (false, false)
    | None => (false, false)
    end in
  get_course course_id user_id w =
  (Ok (VDict (course_dict course_id c ++
              [("instructor_name", VStr (u_full_name u));
               ("is_enrolled", VBool flags.1);
               ("is_instructor", VBool flags.2)])), w).
Proof.
  intros Hc Hu flags. subst flags. unfold get_course. run_handler.
  rewrite Hc. simpl. rewrite Hu. simpl.
  destruct user_id as [uid|]; [|done].
  simpl. by destruct (uid =? 0).
Qed.

Lemma enrolled_flag w course_id uid :
  bool_decide (is_Some (fetchone
    (select (fun r => e_course_id r = course_id /\ e_student_id r = uid)
            (enrollments (db w))))) = true <->
  exists k e, rows (enrollments (db w)) !! k = Some e /\
              e_course_id e = course_id /\ e_student_id e = uid.
Proof.
  rewrite bool_decide_eq_true. split.
  - intros [[k e] Hone]. apply fetchone_select_Some in Hone. by exists k, e.
  - intros (k & e & Hk & HP).
    destruct (fetchone _) as [kr|] eqn:Hone; [by eexists|].
    rewrite fetchone_select_None in Hone. by destruct (Hone k e).
Qed.

(** C3, as the handler has it: for a course whose row and whose
    instructor's row exist, a supplied nonzero user id equal to the
    instructor id is answered with [is_instructor = true], and with
    [is_enrolled = false] when that user has no enrollment row for the
    course; a supplied nonzero user id with an enrollment row for the course
    is answered with [is_enrolled = true]; no user id is answered with both
    flags false. *)
Theorem get_course_flags w course_id c u :
  rows (courses (db w)) !! course_id = Some c ->
  rows (users (db w)) !! c_instructor_id c = Some u ->
  let enrolled uid :=
    exists k e, rows (enrollments (db w)) !! k = Some e /\
                e_course_id e = course_id /\ e_student_id e = uid in
  (forall uid, uid <> 0 -> uid = c_instructor_id c ->
     exists r, get_course course_id (Some uid) w = (Ok r, w) /\
               dict_get "is_instructor" r = Some (VBool true) /\
               (~ enrolled uid -> dict_get "is_enrolled" r = Some (VBool false))) /\
  (forall uid, uid <> 0 -> enrolled uid ->
     exists r, get_course course_id (Some uid) w = (Ok r, w) /\
               dict_get "is_enrolled" r = Some (VBool true)) /\
  (exists r, get_course course_id None w = (Ok r, w) /\
             dict_get "is_enrolled" r = Some (VBool false) /\
             dict_get "is_instructor" r = Some (VBool false)).
Proof.
  intros Hc Hu enrolled. repeat split.
  - intros uid Hnz Hinstr. eexists. split.
    { apply (get_course_found _ _ (Some uid) _ _ Hc Hu). }
    assert (Htruthy : (uid =? 0) = false) by by apply Z.eqb_neq.
    simpl. rewrite Htruthy. simpl. split.
    + by rewrite bool_decide_eq_true_2.
    + intros Hnot. f_equal. f_equal. apply not_true_is_false.
      intros Hyes. apply Hnot. by apply enrolled_flag.
  - intros uid Hnz Henr. eexists. split.
    { apply (get_course_found _ _ (Some uid) _ _ Hc Hu). }
    assert (Htruthy : (uid =? 0) = false) by by apply Z.eqb_neq.
    simpl. rewrite Htruthy. simpl. f_equal. f_equal.
    by apply enrolled_flag.
  - eexists. split.
    { apply (get_course_found _ _ None _ _ Hc Hu). }
    done.
Qed.


(** ** Replacing and removing stored files *)

Lemma update_material_replaces_file w clk material_id title f m v :
  rows (materials (db w)) !! material_id = Some m ->
  (update_material clk material_id title (Some f) w).1 = Ok v ->
  let w' := after (update_material clk material_id title (Some f)) w in
  let new_path := material_path clk (m_course_id m) f in
  v = success "Material updated" /\
  disk w' = <[lstrip [slash] new_path := UploadFile.file f]>
              (delete (lstrip [slash] (m_file_path m)) (disk w)) /\
  rows (materials (db w')) =
  <[material_id := mkMaterial (m_course_id m) title new_path
                              (classify (UploadFile.filename f))
                              (m_uploaded_at m)]> (rows (materials (db w))).
Proof.
  intros Hm Hok w' new_path. subst w' new_path. revert Hok.
  unfold after, update_material. run_handler. rewrite Hm.
  set (p := lstrip [slash] (m_file_path m)).
  destruct (accepts (lstrip [slash] (material_path clk (m_course_id m) f)))
    eqn:Hacc;
    (destruct (disk w !! p) as [bytes|] eqn:Hp;
     [ rewrite bool_decide_eq_true_2 by eauto; simpl; rewrite Hp; simpl
     | rewrite bool_decide_eq_false_2 by apply is_Some_None; simpl ]);
    settle_write Hacc; simpl; try discriminate; intros [= <-];
    unfold update_row; rewrite (alter_present _ _ _ _ Hm);
    rewrite ?(delete_id _ _ Hp); done.
Qed.

(** The assignment handlers remove no file: what is on disk before an
    update or a delete is on disk after it. *)
Lemma assignment_handlers_keep_files w clk assignment_id title description
    due_date file p :
  is_Some (disk w !! p) ->
  is_Some (disk (after (delete_assignment assignment_id) w) !! p) /\
  is_Some (disk (after (update_assignment clk assignment_id title description
                          due_date file) w) !! p).
Proof.
  intros Hp. split.
  - unfold after, delete_assignment. run_handler. unfold delete_assignment_row.
    by destruct (rows (assignments (db w)) !! assignment_id).
  - unfold after, update_assignment. destruct file as [f|]; run_handler; [|done].
    destruct (accepts _); simpl; [|done].
    apply lookup_insert_is_Some. destruct (decide (
      "uploads/materials/" +:+ "assignment_" +:+ pretty assignment_id +:+ "_"
      +:+ py_stamp clk +:+ "_" +:+ UploadFile.filename f = p)); auto.
Qed.

(** C2, on the assignment handlers: the instruction file of assignment 1
    is referenced before, and is an orphan after deleting the assignment
    and after updating it with a new file; the material handlers do remove
    the file they replace or delete. *)
Theorem assignment_file_left_behind :
  let w := Scenario.with_assignment in
  let p := Scenario.instruction_file in
  let upload := UploadFile.mk "hw1-v2.pdf" Scenario.pdf_bytes in
  rows (assignments (db w)) !! 1 = Some Scenario.assignment_row /\
  ~ orphan w p /\
  (delete_assignment 1 w).1 = Ok (success "Assignment deleted") /\
  orphan (after (delete_assignment 1) w) p /\
  (update_assignment Scenario.clk2 1 "Homework 1" "Prove it" None (Some upload) w).1
  = Ok (success "Assignment updated") /\
  orphan (after (update_assignment Scenario.clk2 1 "Homework 1" "Prove it" None
                   (Some upload)) w) p.
Proof.
  intros w p upload.
  split; [vm_compute; reflexivity|].
  split; [intros H; apply (bool_decide_pack _) in H; vm_compute in H; exact H|].
  split; [vm_compute; reflexivity|].
  split; [apply (bool_decide_unpack _); vm_compute; exact I|].
  split; [vm_compute; reflexivity|].
  apply (bool_decide_unpack _); vm_compute; exact I.
Qed.

(** C1, on [get_profile]: asking for the profile of user 7, who has no
    row, is answered with 500, while the other single-resource fetches
    answer a missing row with 404. *)
Theorem get_profile_unknown_user :
  let w := Scenario.registered in
  rows (users (db w)) !! 7 = None /\
  get_profile 7 w = (Raise (HTTPException 500 "404: User not found"), w) /\
  status_of (get_profile 7 w).1 = 500 /\
  status_of (get_material 7 w).1 = 404 /\
  status_of (get_announcement 7 w).1 = 404 /\
  status_of (get_course 7 None w).1 = 404 /\
  status_of (get_assignment_details 7 None w).1 = 404.
Proof. vm_compute. repeat split; reflexivity. Qed.

(** C3 as first stated fails: the teacher of course 1 has enrolled in it,
    and the course detail for that user carries [is_instructor = true]
    together with [is_enrolled = true]. *)
Lemma get_course_instructor_enrolled :
  let w := Scenario.instructor_enrolled in
  rows (courses (db w)) !! 1 = Some Scenario.course_row /\
  c_instructor_id Scenario.course_row = 1 /\
  (get_course 1 (Some 1) w).1 =
  Ok (VDict [("id", VInt 1); ("title", VStr "Logic");
             ("description", VStr "An introduction");
             ("instructor_id", VInt 1);
             ("instructor_name", VStr "Ada Teacher");
             ("is_enrolled", VBool true); ("is_instructor", VBool true)]) /\
  ~ (exists r, (get_course 1 (Some 1) w).1 = Ok r /\
               dict_get "is_instructor" r = Some (VBool true) /\
               dict_get "is_enrolled" r = Some (VBool false)).
Proof.
  intros w.
  assert (Hrun : (get_course 1 (Some 1) w).1 =
    Ok (VDict [("id", VInt 1); ("title", VStr "Logic");
               ("description", VStr "An introduction");
               ("instructor_id", VInt 1);
               ("instructor_name", VStr "Ada Teacher");
               ("is_enrolled", VBool true); ("is_instructor", VBool true)]))
    by (vm_compute; reflexivity).
  split; [vm_compute; reflexivity|].
  split; [reflexivity|].
  split; [exact Hrun|].
  intros (r & Hr & _ & Henrolled). rewrite Hrun in Hr.
  injection Hr as <-. vm_compute in Henrolled. discriminate.
Qed.

(** ** The properties at work on the small run *)

Lemma unique_on_NoDup {A B} (key : A -> B) (t : Table A) :
  NoDup ((fun kr => key kr.2) <$> map_to_list (rows t)) ->
  unique_on key t.
Proof.
  intros Hnd k1 k2 r1 r2 H1 H2 Hkey.
  apply elem_of_map_to_list in H1, H2.
  assert (Heq : (k1, r1) = (k2, r2)); [|congruence].
  revert Hnd H1 H2. generalize (map_to_list (rows t)). intros l.
  induction l as [|x l IH]; intros Hnd H1 H2.
  - by apply elem_of_nil in H1.
  - rewrite fmap_cons in Hnd. apply NoDup_cons in Hnd as [Hx Hnd].
    apply elem_of_cons in H1 as [E1|H1]; apply elem_of_cons in H2 as [E2|H2].
    + congruence.
    + exfalso. apply Hx. rewrite <- E1. simpl. rewrite Hkey.
      apply (list_elem_of_fmap_2 (fun kr => key kr.2) l (k2, r2)). done.
    + exfalso. apply Hx. rewrite <- E2. simpl. rewrite <- Hkey.
      apply (list_elem_of_fmap_2 (fun kr => key kr.2) l (k1, r1)). done.
    + by apply IH.
Qed.

Lemma delete_material_missing_witness :
  rows (materials (db Scenario.with_material)) !! 7 = None /\
  delete_material 7 Scenario.with_material =
  (Ok (success "Material deleted"), Scenario.with_material).
Proof.
  assert (Hno : rows (materials (db Scenario.with_material)) !! 7 = None)
    by (vm_compute; reflexivity).
  split; [exact Hno|].
  exact (proj1 (delete_material_missing Scenario.with_material 7 Hno)).
Defined.

Lemma delete_material_then_get_witness :
  rows (materials (db Scenario.with_material)) !! 1 = Some Scenario.material_row /\
  exists w',
    delete_material 1 Scenario.with_material =
    (Ok (success "Material deleted"), w') /\
    disk w' = delete (lstrip [slash] (m_file_path Scenario.material_row))
                     (disk Scenario.with_material) /\
    rows (materials (db w')) =
    delete 1 (rows (materials (db Scenario.with_material))) /\
    get_material 1 w' = (Raise (HTTPException 404 "Material not found"), w').
Proof.
  assert (Hm : rows (materials (db Scenario.with_material)) !! 1 =
               Some Scenario.material_row) by (vm_compute; reflexivity).
  split; [exact Hm|].
  exact (delete_material_then_get Scenario.with_material 1 _ Hm).
Defined.

Lemma register_duplicate_email_witness :
  rows (users (db Scenario.registered)) !! 1 = Some Scenario.teacher_row /\
  register Scenario.teacher Scenario.registered =
  (Raise (HTTPException 400 "Email already exists"), Scenario.registered).
Proof.
  assert (Hk : rows (users (db Scenario.registered)) !! 1 =
               Some Scenario.teacher_row) by (vm_compute; reflexivity).
  split; [exact Hk|].
  exact (proj1 (register_duplicate_email Scenario.registered Scenario.teacher
                  1 Scenario.teacher_row Hk eq_refl)).
Defined.

Lemma login_outcome_witness :
  rows (users (db Scenario.registered)) !! 1 = Some Scenario.teacher_row /\
  login (UserLogin.mk "ada@example.org" "s3cret") Scenario.registered =
  (Ok (VDict [("success", VBool true);
              ("user", VDict [("id", VInt 1);
                              ("email", VStr "ada@example.org");
                              ("full_name", VStr "Ada Teacher");
                              ("role", VStr "instructor");
                              ("profile_picture", VNone)])]),
   Scenario.registered).
Proof.
  assert (Hk : rows (users (db Scenario.registered)) !! 1 =
               Some Scenario.teacher_row) by (vm_compute; reflexivity).
  split; [exact Hk|].
  assert (Huniq : unique_on u_email (users (db Scenario.registered))).
  { apply unique_on_NoDup. apply (bool_decide_unpack _). vm_compute. exact I. }
  assert (Hmail : u_email Scenario.teacher_row = "ada@example.org")
    by reflexivity.
  assert (Hpw : u_password Scenario.teacher_row = hash_password "s3cret")
    by reflexivity.
  pose proof (proj2 (proj2 (login_outcome Scenario.registered
                              (UserLogin.mk "ada@example.org" "s3cret")))
                Huniq 1 Scenario.teacher_row (conj Hk (conj Hmail Hpw)))
    as Hrun.
  exact Hrun.
Defined.

Lemma enroll_course_twice_witness :
  rows (enrollments (db Scenario.student_enrolled)) !! 1 =
  Some Scenario.enrollment_row /\
  enroll_course Scenario.clk2 1 2 Scenario.student_enrolled =
  (Raise (HTTPException 400 "Already enrolled"), Scenario.student_enrolled) /\
  select (fun r => e_course_id r = 1 /\ e_student_id r = 2)
         (enrollments (db (after (enroll_course Scenario.clk2 1 2)
                                 Scenario.student_enrolled)))
  = [(1, Scenario.enrollment_row)].
Proof.
  assert (Hk : rows (enrollments (db Scenario.student_enrolled)) !! 1 =
               Some Scenario.enrollment_row) by (vm_compute; reflexivity).
  destruct (enroll_course_twice Scenario.student_enrolled Scenario.clk2 1 2
              1 Scenario.enrollment_row Hk eq_refl eq_refl)
    as (Hrun & _ & Honly).
  split; [exact Hk|]. split; [exact Hrun|].
  apply Honly. apply unique_on_NoDup.
  apply (bool_decide_unpack _). vm_compute. exact I.
Defined.

Lemma submit_assignment_again_witness :
  let w := Scenario.with_assignment in
  let first := UploadFile.mk "answer.txt" Scenario.txt_bytes in
  let second := UploadFile.mk "answer-v2.txt" Scenario.txt_bytes in
  let w1 := after (submit_assignment Scenario.clk1 1 2 "first answer" (Some first)) w in
  let w2 := after (submit_assignment Scenario.clk2 1 2 "second answer" (Some second)) w1 in
  (submit_assignment Scenario.clk1 1 2 "first answer" (Some first) w).1 =
  Ok (success "Assignment submitted") /\
  (submit_assignment Scenario.clk2 1 2 "second answer" (Some second) w1).1 =
  Ok (success "Assignment submitted") /\
  size (rows (submissions (db w2))) = size (rows (submissions (db w1))) /\
  exists k r1,
    rows (submissions (db w1)) !! k = Some r1 /\
    select (fun x => s_assignment_id x = 1 /\ s_student_id x = 2)
           (submissions (db w2)) =
    [(k, mkSubmission 1 2
           (Some "/uploads/submissions/submission_1_2_1700000600.75_answer-v2.txt")
           "second answer" (s_grade r1) (s_feedback r1) 1700000600
           (s_graded_at r1))].
Proof.
  intros w first second w1 w2.
  assert (Hok : (submit_assignment Scenario.clk1 1 2 "first answer"
                   (Some first) w).1 = Ok (success "Assignment submitted"))
    by (vm_compute; reflexivity).
  assert (Hok2 : (submit_assignment Scenario.clk2 1 2 "second answer"
                    (Some second) w1).1 = Ok (success "Assignment submitted"))
    by (vm_compute; reflexivity).
  assert (Huniq : unique_on submission_key (submissions (db w))).
  { apply unique_on_NoDup. apply (bool_decide_unpack _). vm_compute. exact I. }
  destruct (submit_assignment_again w Scenario.clk1 Scenario.clk2 1 2
              "first answer" (Some first) "second answer" (Some second)
              _ Huniq Hok)
    as (Hsize & _ & _ & k & r1 & Hsel1 & Hover).
  destruct (Hover _ Hok2) as (_ & _ & Honly).
  split; [exact Hok|]. split; [exact Hok2|]. split; [exact Hsize|].
  exists k, r1. split; [|exact Honly].
  assert (Hin : (k, r1) ∈ [(k, r1)]) by left.
  rewrite <- Hsel1 in Hin. apply elem_of_select in Hin. exact (proj1 Hin).
Defined.

Lemma delete_assignment_cascades_witness :
  let w := Scenario.with_submission in
  let w' := after (delete_assignment 1) w in
  rows (assignments (db w)) !! 1 = Some Scenario.assignment_row /\
  rows (submissions (db w)) !! 1 = Some Scenario.submission_row /\
  (delete_assignment 1 w).1 = Ok (success "Assignment deleted") /\
  rows (assignments (db w')) = delete 1 (rows (assignments (db w))) /\
  (forall k r, rows (submissions (db w')) !! k = Some r ->
               s_assignment_id r <> 1).
Proof.
  intros w w'.
  assert (Ha : rows (assignments (db w)) !! 1 = Some Scenario.assignment_row)
    by (vm_compute; reflexivity).
  destruct (delete_assignment_cascades w 1 Scenario.assignment_row Ha)
    as (Hrun & Hrows & Hgone & _).
  split; [exact Ha|]. split; [vm_compute; reflexivity|].
  split; [exact Hrun|]. split; [exact Hrows | exact Hgone].
Defined.

Lemma get_course_flags_witness :
  let w := Scenario.student_enrolled in
  rows (courses (db w)) !! 1 = Some Scenario.course_row /\
  rows (users (db w)) !! 1 = Some Scenario.teacher_row /\
  (exists r, get_course 1 (Some 1) w = (Ok r, w) /\
             dict_get "is_instructor" r = Some (VBool true) /\
             dict_get "is_enrolled" r = Some (VBool false)) /\
  (exists r, get_course 1 (Some 2) w = (Ok r, w) /\
             dict_get "is_enrolled" r = Some (VBool true)) /\
  (exists r, get_course 1 None w = (Ok r, w) /\
             dict_get "is_enrolled" r = Some (VBool false) /\
             dict_get "is_instructor" r = Some (VBool false)).
Proof.
  intros w.
  assert (Hc : rows (courses (db w)) !! 1 = Some Scenario.course_row)
    by (vm_compute; reflexivity).
  assert (Hu : rows (users (db w)) !! c_instructor_id Scenario.course_row =
               Some Scenario.teacher_row) by (vm_compute; reflexivity).
  destruct (get_course_flags w 1 Scenario.course_row Scenario.teacher_row Hc Hu)
    as (Hinstr & Henr & Hnone).
  split; [exact Hc|]. split; [exact Hu|]. split; [|split; [|exact Hnone]].
  - destruct (Hinstr 1) as (r & Hrun & Hflag & Hnot); [lia | reflexivity |].
    exists r. split; [exact Hrun|]. split; [exact Hflag|].
    apply Hnot. intros Hyes. apply enrolled_flag in Hyes.
    vm_compute in Hyes. discriminate.
  - apply (Henr 2); [lia|].
    exists 1, Scenario.enrollment_row. vm_compute. repeat split; reflexivity.
Defined.

(** * Further properties of the code *)

(** ** File names and extensions *)

Lemma rfind_from_spec c cs i acc :
  ((c ∉ cs) /\ rfind_from c cs i acc = acc) \/
  (exists pre post, cs = (pre ++ c :: post)%list /\ (c ∉ post) /\
                    rfind_from c cs i acc = i + Z.of_nat (length pre)).
Proof.
  revert i acc. induction cs as [|x cs IH]; intros i acc; simpl.
  - left. split; [apply not_elem_of_nil | done].
  - destruct (IH (i + 1) (if decide (x = c) then i else acc))
      as [[Hno Hr] | (pre & post & -> & Hpost & Hr)].
    + destruct (decide (x = c)) as [->|Hne].
      * right. exists [], cs. simpl. rewrite Hr. repeat split; [done | lia].
      * left. split; [|done]. rewrite not_elem_of_cons. auto.
    + right. exists (x :: pre), post. simpl. rewrite Hr.
      repeat split; [done | lia].
Qed.

Lemma rfind_lower_bound c cs : -1 <= rfind c cs.
Proof.
  unfold rfind.
  destruct (rfind_from_spec c cs 0 (-1)) as [[_ ->] | (? & ? & _ & _ & ->)]; lia.
Qed.

Lemma suffix_after_later_split {A} (pre1 pre2 post1 post2 : list A) x y :
  (pre1 ++ x :: post1)%list = (pre2 ++ y :: post2)%list ->
  (length pre2 < length pre1)%nat ->
  forall z, z ∈ post1 -> z ∈ post2.
Proof.
  revert pre2. induction pre1 as [|a pre1 IH]; intros pre2 Heq Hlen z Hz.
  - simpl in Hlen. lia.
  - destruct pre2 as [|b pre2]; simpl in *.
    + injection Heq as _ <-. apply elem_of_app. right. by right.
    + injection Heq as _ Heq. eapply IH; [done | lia | done].
Qed.

Lemma splitext_ext_cases p :
  splitext_ext p = "" \/
  exists stem ext,
    String.list_ascii_of_string p = (stem ++ dot :: ext)%list /\
    (dot ∉ ext) /\ (slash ∉ ext) /\
    splitext_ext p = String dot (String.string_of_list_ascii ext).
Proof.
  unfold splitext_ext.
  set (cs := String.list_ascii_of_string p).
  destruct (decide (rfind slash cs < rfind dot cs)) as [Hlt|]; [|by left].
  destruct (forallb _ _); [by left|]. right.
  unfold rfind in *.
  destruct (rfind_from_spec dot cs 0 (-1))
    as [[_ Hd] | (stem & ext & Hcs & Hext & Hd)].
  { pose proof (rfind_lower_bound slash cs). unfold rfind in *. lia. }
  exists stem, ext. rewrite Hd.
  replace (Z.to_nat (0 + Z.of_nat (length stem))) with (length stem) by lia.
  split; [done|]. split; [done|]. split; [|by rewrite Hcs, drop_app_length].
  destruct (rfind_from_spec slash cs 0 (-1))
    as [[Hno _] | (pre & post & Hcs' & Hpost & Hs)].
  - intros Hin. apply Hno. rewrite Hcs. apply elem_of_app. right. by right.
  - intros Hin. apply Hpost.
    eapply (suffix_after_later_split stem pre ext post); [|lia|done].
    transitivity cs; [symmetry; exact Hcs | exact Hcs'].
Qed.

(** X1: the extension [os.path.splitext] cuts off, which [update_profile]
    appends to the picture's name, is empty, or it is the end of the file
    name from its last dot on and holds no further dot and no slash. *)
Theorem splitext_ext_shape p :
  splitext_ext p = "" \/
  exists stem ext,
    String.list_ascii_of_string p = (stem ++ dot :: ext)%list /\
    (dot ∉ ext) /\ (slash ∉ ext) /\
    splitext_ext p = String dot (String.string_of_list_ascii ext).
Proof. exact (splitext_ext_cases p). Qed.

(** ** Names that stay in their directory *)









Lemma lower_ascii_fixes c x :
  (Ascii.N_of_ascii c < 65)%N ->
  lower_ascii x = c <-> x = c.
Proof.
  intros Hc. unfold lower_ascii.
  destruct ((65 <=? Ascii.N_of_ascii x)%N && (Ascii.N_of_ascii x <=? 90)%N)
    eqn:Hx; [|done].
  apply andb_true_iff in Hx as [H1 H2]. apply N.leb_le in H1, H2.
  split; intros <-.
  - rewrite Ascii.N_ascii_embedding in Hc by lia. lia.
  - lia.
Qed.

Lemma lower_ascii_idemp c : lower_ascii (lower_ascii c) = lower_ascii c.
Proof.
  destruct ((65 <=? Ascii.N_of_ascii c)%N && (Ascii.N_of_ascii c <=? 90)%N)
    eqn:Hc.
  - assert (Hl : lower_ascii c = Ascii.ascii_of_N (Ascii.N_of_ascii c + 32))
      by (unfold lower_ascii; by rewrite Hc).
    apply andb_true_iff in Hc as [H1 H2]. apply N.leb_le in H1, H2.
    rewrite Hl. unfold lower_ascii. rewrite Ascii.N_ascii_embedding by lia.
    assert (Hgt : (Ascii.N_of_ascii c + 32 <=? 90)%N = false)
      by (apply N.leb_gt; lia).
    by rewrite Hgt, andb_false_r.
  - assert (Hl : lower_ascii c = c) by (unfold lower_ascii; by rewrite Hc).
    by rewrite !Hl.
Qed.

Lemma lower_idemp s : lower (lower s) = lower s.
Proof. induction s as [|c s IH]; simpl; [done|]. by rewrite lower_ascii_idemp, IH. Qed.

Lemma list_ascii_of_lower s :
  String.list_ascii_of_string (lower s) =
  lower_ascii <$> String.list_ascii_of_string s.
Proof.
  induction s as [|c s IH]; [done|].
  cbn [lower String.list_ascii_of_string]. by rewrite IH, fmap_cons.
Qed.

Lemma string_of_lower_list cs :
  String.string_of_list_ascii (lower_ascii <$> cs) =
  lower (String.string_of_list_ascii cs).
Proof.
  induction cs as [|c cs IH]; [done|].
  rewrite fmap_cons. cbn [String.string_of_list_ascii lower]. by rewrite IH.
Qed.

Lemma rfind_from_lower c cs i acc :
  (forall x, lower_ascii x = c <-> x = c) ->
  rfind_from c (lower_ascii <$> cs) i acc = rfind_from c cs i acc.
Proof.
  intros Hc. revert i acc. induction cs as [|x cs IH]; intros i acc; [done|].
  rewrite fmap_cons. cbn [rfind_from]. rewrite IH.
  destruct (decide (lower_ascii x = c)) as [Hl|Hl],
    (decide (x = c)) as [Hx|Hx]; try done.
  - destruct Hx. by apply (proj1 (Hc x)).
  - destruct Hl. by apply (proj2 (Hc x)).
Qed.

Lemma forallb_dot_lower cs :
  forallb (fun c => bool_decide (c = dot)) (lower_ascii <$> cs) =
  forallb (fun c => bool_decide (c = dot)) cs.
Proof.
  induction cs as [|c cs IH]; [done|].
  rewrite fmap_cons. cbn [forallb]. rewrite IH. f_equal.
  apply bool_decide_ext. apply lower_ascii_fixes. by vm_compute.
Qed.

Lemma splitext_ext_lower p : splitext_ext (lower p) = lower (splitext_ext p).
Proof.
  unfold splitext_ext, rfind. rewrite list_ascii_of_lower.
  rewrite !rfind_from_lower by (intros x; apply lower_ascii_fixes; by vm_compute).
  destruct (decide _); [|done].
  rewrite <- fmap_drop, <- fmap_take, forallb_dot_lower.
  destruct (forallb _ _); [done|].
  by rewrite <- fmap_drop, string_of_lower_list.
Qed.

(** X2: the file type [upload_material] and [update_material] record does
    not depend on the letter case of the uploaded file's name. *)
Theorem classify_ignores_case name : classify (lower name) = classify name.
Proof.
  unfold classify. by rewrite splitext_ext_lower, lower_idemp.
Qed.

(** ** The password digest *)

Lemma be_bytes_range n x :
  Forall (fun b => 0 <= b < 256) (SHA256.be_bytes n x).
Proof.
  induction n as [|n IH]; simpl; constructor; [|done].
  apply Z.mod_pos_bound. lia.
Qed.

Lemma be_bytes_length n x : length (SHA256.be_bytes n x) = n.
Proof. induction n as [|n IH]; simpl; [done|]. by rewrite IH. Qed.

Lemma hex_digit_hex d : 0 <= d < 16 -> SHA256.hex_digit d ∈ lowercase_hex.
Proof.
  intros Hd.
  assert (Hcases : Exists (fun n => d = n) (seqZ 0 16)).
  { apply Exists_exists. exists d. split; [|done].
    apply elem_of_seqZ. lia. }
  repeat (apply Exists_cons in Hcases as [->|Hcases];
          [apply (bool_decide_unpack _); by vm_compute|]).
  by apply Exists_nil in Hcases.
Qed.

Lemma hex_bytes_length bs :
  String.length (fold_right SHA256.hex_byte "" bs) = (2 * length bs)%nat.
Proof. induction bs as [|b bs IH]; simpl; [done|]. rewrite IH. lia. Qed.

Lemma hex_bytes_chars bs :
  Forall (fun b => 0 <= b < 256) bs ->
  Forall (fun c => c ∈ lowercase_hex)
         (String.list_ascii_of_string (fold_right SHA256.hex_byte "" bs)).
Proof.
  induction 1 as [|b bs Hb _ IH]; simpl; [constructor|].
  constructor; [|constructor; [|done]]; apply hex_digit_hex.
  - split; [apply Z.div_pos; lia | apply Z.div_lt_upper_bound; lia].
  - apply Z.mod_pos_bound. lia.
Qed.

Lemma digest_words_length msg : length (SHA256.digest_words msg) = 8%nat.
Proof.
  unfold SHA256.digest_words.
  by destruct (fold_left _ _ _) as [[[[[[[a b] c] d] e] f] g] h].
Qed.

(** X3: whatever the password, [hash_password] yields 64 characters, each
    one of [0-9a-f]; this is what [register] stores and [login] compares. *)
Theorem hash_password_format password :
  String.length (hash_password password) = 64%nat /\
  Forall (fun c => c ∈ lowercase_hex)
         (String.list_ascii_of_string (hash_password password)).
Proof.
  unfold hash_password, SHA256.hexdigest. split.
  - rewrite hex_bytes_length, length_concat.
    pose proof (digest_words_length (SHA256.bytes_of password)) as Hlen.
    destruct (SHA256.digest_words _) as [|a [|b [|c [|d [|e [|f [|g [|h [|]]]]]]]]];
      try discriminate.
    reflexivity.
  - apply hex_bytes_chars, Forall_concat, Forall_forall.
    intros bs Hbs. apply list_elem_of_In, in_map_iff in Hbs as (x & <- & _).
    apply be_bytes_range.
Qed.

(** ** Tables *)

Lemma table_eta {A} (t : Table A) : mkTable (rows t) (next_id t) = t.
Proof. by destruct t. Qed.

Lemma update_row_missing {A} (f : A -> A) k (t : Table A) :
  rows t !! k = None -> update_row f k t = t.
Proof.
  intros Hk. unfold update_row.
  rewrite (alter_id' f (rows t) k) by done.
  apply table_eta.
Qed.

Lemma update_row_present {A} (f : A -> A) k r (t : Table A) :
  rows t !! k = Some r ->
  update_row f k t = mkTable (<[k := f r]> (rows t)) (next_id t).
Proof. intros Hk. unfold update_row. by rewrite (alter_present _ _ _ _ Hk). Qed.

Lemma delete_row_missing {A} k (t : Table A) :
  rows t !! k = None -> delete_row k t = t.
Proof.
  intros Hk. unfold delete_row. rewrite (delete_id _ _ Hk). apply table_eta.
Qed.


Lemma set_materials_same d : set_materials (materials d) d = d.
Proof. by destruct d. Qed.

Lemma set_announcements_same d : set_announcements (announcements d) d = d.
Proof. by destruct d. Qed.

Lemma set_assignments_same d : set_assignments (assignments d) d = d.
Proof. by destruct d. Qed.

(** ** Accounts *)

Lemma register_run w user :
  select (fun r => u_email r = UserRegister.email user) (users (db w)) = [] ->
  register user w =
  (Ok (VDict [("success", VBool true);
              ("user_id", VInt (next_id (users (db w))));
              ("message", VStr "User registered successfully")]),
   mkWorld
     (set_users
        (insert_row (mkUser (UserRegister.email user)
                            (hash_password (UserRegister.password user))
                            (UserRegister.full_name user)
                            (UserRegister.role user) None)
                    (users (db w))).2 (db w))
     (disk w)).
Proof.
  intros Hsel. unfold register. run_handler. unfold insert_user. simpl.
  by rewrite Hsel.
Qed.

Lemma register_ok_fresh w user v :
  (register user w).1 = Ok v ->
  select (fun r => u_email r = UserRegister.email user) (users (db w)) = [].
Proof.
  unfold register. run_handler. unfold insert_user. simpl.
  by destruct (select _ (users (db w))).
Qed.

(** X4: after a registration that succeeded, logging in with the same
    email and password, and fetching the profile under the id the
    registration returned, both answer the new user's profile, with no
    picture yet. *)
Theorem register_then_login w user v :
  (register user w).1 = Ok v ->
  let w' := after (register user) w in
  let k := next_id (users (db w)) in
  let profile :=
    VDict [("id", VInt k); ("email", VStr (UserRegister.email user));
           ("full_name", VStr (UserRegister.full_name user));
           ("role", VStr (UserRegister.role user));
           ("profile_picture", VNone)] in
  v = VDict [("success", VBool true); ("user_id", VInt k);
             ("message", VStr "User registered successfully")] /\
  login (UserLogin.mk (UserRegister.email user) (UserRegister.password user)) w'
  = (Ok (VDict [("success", VBool true); ("user", profile)]), w') /\
  get_profile k w' = (Ok profile, w').
Proof.
  intros Hok w' k profile.
  pose proof (register_ok_fresh _ _ _ Hok) as Hsel.
  pose proof (register_run _ _ Hsel) as Hrun.
  assert (Hw' : w' = (register user w).2) by done.
  rewrite Hrun in Hok, Hw'. simpl in Hok, Hw'.
  split; [by injection Hok as <-|].
  set (row := mkUser (UserRegister.email user)
                     (hash_password (UserRegister.password user))
                     (UserRegister.full_name user) (UserRegister.role user) None)
    in *.
  assert (Hk : rows (users (db w')) !! k = Some row).
  { rewrite Hw'. simpl. apply lookup_insert_eq. }
  split.
  - apply (login_found w' _ k row). simpl.
    rewrite (select_unique _ (users (db w')) k row); [done | done | done |].
    intros k' r' Hk' [Hmail _].
    destruct (decide (k' = k)) as [|Hne]; [done|]. exfalso.
    rewrite Hw' in Hk'. simpl in Hk'. rewrite lookup_insert_ne in Hk' by done.
    by apply (proj1 (select_nil _ _) Hsel k' r').
  - unfold get_profile. run_handler. by rewrite Hk.
Qed.

Lemma register_then_login_witness :
  let w := Tour.people in
  let bob := UserRegister.mk "bob@example.org" "pa55" "Bob" "student" in
  (register bob w).1 =
  Ok (VDict [("success", VBool true); ("user_id", VInt 3);
             ("message", VStr "User registered successfully")]) /\
  get_profile 3 (after (register bob) w) =
  (Ok (VDict [("id", VInt 3); ("email", VStr "bob@example.org");
              ("full_name", VStr "Bob"); ("role", VStr "student");
              ("profile_picture", VNone)]), after (register bob) w).
Proof.
  intros w bob.
  assert (Hok : (register bob w).1 =
    Ok (VDict [("success", VBool true); ("user_id", VInt 3);
               ("message", VStr "User registered successfully")]))
    by (vm_compute; reflexivity).
  split; [exact Hok|].
  exact (proj2 (proj2 (register_then_login w bob _ Hok))).
Defined.






(** X7: a user id (or student id) of 0 in the query string is treated as
    no id at all, by the course list, the course detail and the assignment
    detail alike. *)
Theorem zero_id_is_no_id w course_id assignment_id :
  get_all_courses (Some 0) w = get_all_courses None w /\
  get_course course_id (Some 0) w = get_course course_id None w /\
  get_assignment_details assignment_id (Some 0) w =
  get_assignment_details assignment_id None w.
Proof.
  split; [done|]. split.
  - unfold get_course. run_handler.
    destruct (rows (courses (db w)) !! course_id) as [c|]; [|done]. simpl.
    by destruct (rows (users (db w)) !! c_instructor_id c).
  - unfold get_assignment_details. run_handler.
    destruct (rows (assignments (db w)) !! assignment_id) as [a|]; [|done].
    simpl. destruct (rows (courses (db w)) !! a_course_id a) as [c|]; [|done].
    simpl. by destruct (rows (users (db w)) !! c_instructor_id c).
Qed.

(** ** Courses and enrollment *)

Lemma elem_of_courses_with_instructor d k c u :
  (k, c, u) ∈ courses_with_instructor d <->
  rows (courses d) !! k = Some c /\ rows (users d) !! c_instructor_id c = Some u.
Proof.
  unfold courses_with_instructor. rewrite list_elem_of_omap. split.
  - intros ([k' c'] & Hin & Hrow). apply elem_of_map_to_list in Hin.
    simpl in Hrow.
    destruct (rows (users d) !! c_instructor_id c') as [u'|] eqn:Hu;
      simpl in Hrow; [|done].
    by injection Hrow as -> -> ->.
  - intros [Hc Hu]. exists (k, c). split; [by apply elem_of_map_to_list|].
    simpl. by rewrite Hu.
Qed.

Lemma create_course_run w course instructor_id u :
  rows (users (db w)) !! instructor_id = Some u ->
  create_course course instructor_id w =
  (Ok (VDict [("success", VBool true);
              ("course_id", VInt (next_id (courses (db w))))]),
   mkWorld
     (set_courses
        (insert_row (mkCourse (Course.title course) (Course.description course)
                              instructor_id) (courses (db w))).2 (db w))
     (disk w)).
Proof.
  intros Hu. unfold create_course. run_handler. unfold insert_course, has_id.
  simpl. by rewrite bool_decide_eq_true_2 by eauto.
Qed.

(** X8: a course created for an existing user is answered with its new
    id; the course detail under that id shows the title, the description,
    the instructor and the instructor's name, and the instructor's course
    list contains the course. *)
Theorem create_course_round_trip w course instructor_id u :
  rows (users (db w)) !! instructor_id = Some u ->
  let w' := after (create_course course instructor_id) w in
  let k := next_id (courses (db w)) in
  let c := mkCourse (Course.title course) (Course.description course)
                    instructor_id in
  (create_course course instructor_id w).1 =
  Ok (VDict [("success", VBool true); ("course_id", VInt k)]) /\
  get_course k None w' =
  (Ok (VDict [("id", VInt k); ("title", VStr (Course.title course));
              ("description", VStr (Course.description course));
              ("instructor_id", VInt instructor_id);
              ("instructor_name", VStr (u_full_name u));
              ("is_enrolled", VBool false); ("is_instructor", VBool false)]),
   w') /\
  exists l, get_instructor_courses instructor_id w' = (Ok l, w') /\
            VDict (course_dict k c) ∈ l.
Proof.
  intros Hu w' k c.
  pose proof (create_course_run w course instructor_id u Hu) as Hrun.
  assert (Hw' : w' = (create_course course instructor_id w).2) by done.
  rewrite Hrun in Hw'. simpl in Hw'.
  assert (Hk : rows (courses (db w')) !! k = Some c).
  { rewrite Hw'. simpl. apply lookup_insert_eq. }
  assert (Hu' : rows (users (db w')) !! c_instructor_id c = Some u).
  { rewrite Hw'. done. }
  split; [by rewrite Hrun|]. split.
  - by rewrite (get_course_found w' k None c u Hk Hu').
  - eexists. split; [reflexivity|]. simpl.
    apply (list_elem_of_fmap_2 (fun kc => VDict (course_dict kc.1 kc.2)) _ (k, c)).
    by apply elem_of_select.
Qed.

Lemma create_course_round_trip_witness :
  let w := Tour.people in
  let w' := after (create_course (Course.mk "Sets" "Naive") 1) w in
  is_Some (rows (users (db w)) !! 1) /\
  get_course 1 None w' =
  (Ok (VDict [("id", VInt 1); ("title", VStr "Sets");
              ("description", VStr "Naive"); ("instructor_id", VInt 1);
              ("instructor_name", VStr "Ada Teacher");
              ("is_enrolled", VBool false); ("is_instructor", VBool false)]),
   w').
Proof.
  intros w w'.
  assert (Hu : rows (users (db w)) !! 1 =
               Some (mkUser "ada@example.org" (hash_password "s3cret")
                            "Ada Teacher" "instructor" None))
    by (vm_compute; reflexivity).
  split; [by rewrite Hu|].
  exact (proj1 (proj2 (create_course_round_trip w (Course.mk "Sets" "Naive")
                         1 _ Hu))).
Defined.

(** X9: the course list holds exactly the courses whose instructor has a
    users row, each with the instructor's name.  For a nonzero user id
    every entry carries [is_enrolled], as the number 1 when that user has
    an enrollment row for the course and 0 when not; without a user id the
    entries have no such key. *)
Theorem get_all_courses_entries w :
  (exists l, get_all_courses None w = (Ok l, w) /\
     forall row, row ∈ l <->
       exists k c u, rows (courses (db w)) !! k = Some c /\
                     rows (users (db w)) !! c_instructor_id c = Some u /\
                     row = VDict (course_listing k c u)) /\
  (forall user_id, user_id <> 0 ->
     exists l, get_all_courses (Some user_id) w = (Ok l, w) /\
       forall row, row ∈ l <->
         exists k c u, rows (courses (db w)) !! k = Some c /\
                       rows (users (db w)) !! c_instructor_id c = Some u /\
                       let enrolled :=
                         exists ke e, rows (enrollments (db w)) !! ke = Some e /\
                                      e_course_id e = k /\
                                      e_student_id e = user_id in
                       (enrolled /\
                        row = VDict (course_listing k c u ++
                                     [("is_enrolled", VInt 1)])) \/
                       (~ enrolled /\
                        row = VDict (course_listing k c u ++
                                     [("is_enrolled", VInt 0)]))).
Proof.
  split.
  - eexists. split; [reflexivity|]. intros row. simpl.
    rewrite list_elem_of_fmap. split.
    + intros ([[k c] u] & -> & Hin).
      apply elem_of_courses_with_instructor in Hin as [Hc Hu].
      by exists k, c, u.
    + intros (k & c & u & Hc & Hu & ->). exists (k, c, u).
      split; [done|]. by apply elem_of_courses_with_instructor.
  - intros uid Hnz.
    assert (Htruthy : (uid =? 0) = false) by by apply Z.eqb_neq.
    unfold get_all_courses. run_handler. rewrite Htruthy. simpl.
    eexists. split; [reflexivity|]. intros row.
    rewrite list_elem_of_bind. split.
    + intros ([[k c] u] & Hrow & Hin).
      apply elem_of_courses_with_instructor in Hin as [Hc Hu].
      exists k, c, u. split; [done|]. split; [done|]. simpl.
      destruct (select _ (enrollments (db w))) as [|[ke e] es] eqn:Hsel.
      * right. apply list_elem_of_singleton in Hrow. split; [|done].
        intros (ke & e & Hke & HP). by apply (proj1 (select_nil _ _) Hsel ke e).
      * left. split.
        { assert (Hin : (ke, e) ∈ select (fun e0 => e_course_id e0 = k /\
                          e_student_id e0 = uid) (enrollments (db w)))
            by (rewrite Hsel; left).
          apply elem_of_select in Hin as [Hke HP]. by exists ke, e. }
        apply elem_of_cons in Hrow as [->|Hrow]; [done|].
        by apply list_elem_of_fmap in Hrow as (? & -> & _).
    + intros (k & c & u & Hc & Hu & Hcases). exists (k, c, u).
      split; [|by apply elem_of_courses_with_instructor]. simpl in *.
      destruct (select _ (enrollments (db w))) as [|[ke e] es] eqn:Hsel.
      * destruct Hcases as [[(ke & e & Hke & HP) _] | [_ ->]]; [|left].
        exfalso. by apply (proj1 (select_nil _ _) Hsel ke e).
      * destruct Hcases as [[_ ->] | [Hno _]]; [left|].
        exfalso. apply Hno.
        assert (Hin : (ke, e) ∈ select (fun e0 => e_course_id e0 = k /\
                        e_student_id e0 = uid) (enrollments (db w)))
          by (rewrite Hsel; left).
        apply elem_of_select in Hin as [Hke HP]. by exists ke, e.
Qed.

Lemma get_all_courses_entries_witness :
  let w := Tour.sam_enrolled in
  exists l, get_all_courses (Some 2) w = (Ok l, w) /\
            VDict [("id", VInt 1); ("title", VStr "Logic");
                   ("description", VStr "An introduction");
                   ("instructor_id", VInt 1);
                   ("instructor_name", VStr "Ada Teacher");
                   ("is_enrolled", VInt 1)] ∈ l.
Proof.
  intros w.
  destruct (proj2 (get_all_courses_entries w) 2) as (l & Hrun & Hl); [lia|].
  exists l. split; [exact Hrun|]. apply Hl.
  exists 1, (mkCourse "Logic" "An introduction" 1),
    (mkUser "ada@example.org" (hash_password "s3cret") "Ada Teacher"
            "instructor" None).
  split; [vm_compute; reflexivity|]. split; [vm_compute; reflexivity|].
  left. split; [|reflexivity].
  exists 1, (mkEnrollment 1 2 1700000000). vm_compute. repeat split; reflexivity.
Defined.

Global Instance desc_by_total {A} (key : A -> Z) : Total (desc_by key).
Proof. intros a b. unfold desc_by. lia. Qed.

Global Instance desc_by_transitive {A} (key : A -> Z) : Transitive (desc_by key).
Proof. intros a b c. unfold desc_by. lia. Qed.

Lemma order_by_desc_sorted {A} (key : A -> Z) l :
  StronglySorted (desc_by key) (order_by_desc key l).
Proof. apply StronglySorted_merge_sort; apply _. Qed.

Lemma elem_of_order_by_desc {A} (key : A -> Z) l x :
  x ∈ order_by_desc key l <-> x ∈ l.
Proof. unfold order_by_desc. by rewrite merge_sort_Permutation. Qed.

Lemma NoDup_order_by_desc {A} (key : A -> Z) l :
  NoDup l -> NoDup (order_by_desc key l).
Proof. unfold order_by_desc. by rewrite merge_sort_Permutation. Qed.

Lemma enroll_course_ok w clk course_id student_id v :
  (enroll_course clk course_id student_id w).1 = Ok v ->
  (enroll_course clk course_id student_id w).2 =
  mkWorld
    (set_enrollments
       (insert_row (mkEnrollment course_id student_id (sql_now clk))
                   (enrollments (db w))).2 (db w))
    (disk w).
Proof.
  unfold enroll_course. run_handler. unfold insert_enrollment. simpl.
  destruct (select _ (enrollments (db w))); simpl; [|done].
  by destruct (has_id course_id _ && has_id student_id _).
Qed.

(** X10: once an enrollment has succeeded, the course detail for that
    student (a nonzero id) shows [is_enrolled = true], the student's list
    of enrolled courses contains the course, and the course list for that
    student shows it with [is_enrolled = 1]. *)
Theorem enroll_then_visible w clk course_id student_id c u v :
  rows (courses (db w)) !! course_id = Some c ->
  rows (users (db w)) !! c_instructor_id c = Some u ->
  student_id <> 0 ->
  (enroll_course clk course_id student_id w).1 = Ok v ->
  let w' := after (enroll_course clk course_id student_id) w in
  (exists r, get_course course_id (Some student_id) w' = (Ok r, w') /\
             dict_get "is_enrolled" r = Some (VBool true)) /\
  (exists l, get_enrolled_courses student_id w' = (Ok l, w') /\
             VDict (course_listing course_id c u) ∈ l) /\
  (exists l, get_all_courses (Some student_id) w' = (Ok l, w') /\
             VDict (course_listing course_id c u ++ [("is_enrolled", VInt 1)]) ∈ l).
Proof.
  intros Hc Hu Hnz Hok w'.
  assert (Hw' : w' = (enroll_course clk course_id student_id w).2) by done.
  rewrite (enroll_course_ok _ _ _ _ _ Hok) in Hw'.
  set (ke := next_id (enrollments (db w))) in *.
  set (e := mkEnrollment course_id student_id (sql_now clk)) in *.
  assert (Hc' : rows (courses (db w')) !! course_id = Some c) by by rewrite Hw'.
  assert (Hu' : rows (users (db w')) !! c_instructor_id c = Some u)
    by by rewrite Hw'.
  assert (He : rows (enrollments (db w')) !! ke = Some e).
  { rewrite Hw'. simpl. apply lookup_insert_eq. }
  assert (Htruthy : (student_id =? 0) = false) by by apply Z.eqb_neq.
  split; [|split].
  - eexists. split.
    { apply (get_course_found w' course_id (Some student_id) c u Hc' Hu'). }
    simpl. rewrite Htruthy. simpl. do 2 f_equal.
    apply enrolled_flag. by exists ke, e.
  - eexists. split; [reflexivity|]. simpl.
    apply (list_elem_of_fmap_2
             (fun r : Z * CourseRow * UserRow =>
                VDict (course_listing r.1.1 r.1.2 r.2)) _ (course_id, c, u)).
    unfold enrolled_courses_rows. apply list_elem_of_omap.
    exists (ke, e). split.
    + apply elem_of_order_by_desc. by apply elem_of_select.
    + simpl. rewrite Hc'. simpl. by rewrite Hu'.
  - unfold get_all_courses. run_handler. rewrite Htruthy. simpl.
    eexists. split; [reflexivity|]. apply list_elem_of_bind.
    exists (course_id, c, u).
    split; [|by apply elem_of_courses_with_instructor]. simpl.
    destruct (select _ (enrollments (db w'))) as [|[ke' e'] es] eqn:Hsel.
    + exfalso. by apply (proj1 (select_nil _ _) Hsel ke e).
    + left.
Qed.

Lemma enroll_then_visible_witness :
  let w := Tour.two_courses in
  let w' := after (enroll_course Tour.clk1 2 2) w in
  (enroll_course Tour.clk1 2 2 w).1 = Ok (success "Enrolled successfully") /\
  exists l, get_enrolled_courses 2 w' = (Ok l, w') /\
            VDict [("id", VInt 2); ("title", VStr "Proofs");
                   ("description", VStr "Natural deduction");
                   ("instructor_id", VInt 1);
                   ("instructor_name", VStr "Ada Teacher")] ∈ l.
Proof.
  intros w w'.
  assert (Hok : (enroll_course Tour.clk1 2 2 w).1 =
                Ok (success "Enrolled successfully")) by (vm_compute; reflexivity).
  assert (Hc : rows (courses (db w)) !! 2 =
               Some (mkCourse "Proofs" "Natural deduction" 1))
    by (vm_compute; reflexivity).
  assert (Hu : rows (users (db w)) !!
                 c_instructor_id (mkCourse "Proofs" "Natural deduction" 1) =
               Some (mkUser "ada@example.org" (hash_password "s3cret")
                            "Ada Teacher" "instructor" None))
    by (vm_compute; reflexivity).
  assert (Hnz : 2 <> 0) by lia.
  split; [exact Hok|].
  exact (proj1 (proj2 (enroll_then_visible w Tour.clk1 2 2 _ _ _ Hc Hu Hnz Hok))).
Defined.

(** ** Listings, newest first *)

Lemma listing_spec {A} (P : A -> Prop) `{!forall r, Decision (P r)}
    (key : Z * A -> Z) (t : Table A) :
  let l := order_by_desc key (select P t) in
  StronglySorted (desc_by key) l /\ NoDup l /\
  forall k r, (k, r) ∈ l <-> rows t !! k = Some r /\ P r.
Proof.
  intros l. split; [apply order_by_desc_sorted|]. split.
  - apply NoDup_order_by_desc, NoDup_select.
  - intros k r. subst l. rewrite elem_of_order_by_desc. apply elem_of_select.
Qed.

(** X11: the materials list of a course holds each material of the course
    once and no other, and no entry is older than an entry after it. *)
Theorem get_materials_listing w course_id :
  exists l,
    get_materials course_id w =
    (Ok ((fun km => material_dict km.1 km.2) <$> l), w) /\
    StronglySorted (fun a b => m_uploaded_at b.2 <= m_uploaded_at a.2) l /\
    NoDup l /\
    forall k m, (k, m) ∈ l <->
                rows (materials (db w)) !! k = Some m /\ m_course_id m = course_id.
Proof.
  exists (materials_rows course_id (db w)). split; [done|].
  apply (listing_spec (fun m => m_course_id m = course_id)
                      (fun km => m_uploaded_at km.2)).
Qed.

(** X12: the announcements list of a course holds each announcement of the
    course once and no other, and no entry is older than an entry after
    it. *)
Theorem get_announcements_listing w course_id :
  exists l,
    get_announcements course_id w =
    (Ok ((fun kn => announcement_dict kn.1 kn.2) <$> l), w) /\
    StronglySorted (fun a b => n_created_at b.2 <= n_created_at a.2) l /\
    NoDup l /\
    forall k n, (k, n) ∈ l <->
                rows (announcements (db w)) !! k = Some n /\
                n_course_id n = course_id.
Proof.
  exists (announcements_rows course_id (db w)). split; [done|].
  apply (listing_spec (fun n => n_course_id n = course_id)
                      (fun kn => n_created_at kn.2)).
Qed.

Lemma StronglySorted_omap {A B} (R : relation A) (R' : relation B)
    (f : A -> option B) l :
  (forall x y x' y', f x = Some x' -> f y = Some y' -> R x y -> R' x' y') ->
  StronglySorted R l -> StronglySorted R' (omap f l).
Proof.
  intros HR. induction 1 as [|x l Hl IH Hx]; simpl; [constructor|].
  destruct (f x) as [x'|] eqn:Hfx; [|done].
  constructor; [done|].
  apply Forall_forall. intros y' Hy'.
  apply list_elem_of_omap in Hy' as (y & Hy & Hfy).
  apply (HR x y); [done..|]. by apply (proj1 (Forall_forall (R x) l) Hx).
Qed.

(** X13: the submissions list of an assignment holds, for each submission
    of the assignment whose student has a users row, the submission's
    columns with the student's name and email, and no entry was submitted
    before an entry after it. *)
Theorem get_submissions_listing w assignment_id :
  exists l : list (Z * SubmissionRow * UserRow),
    get_submissions assignment_id w =
    (Ok ((fun r =>
            VDict [("id", VInt r.1.1);
                   ("assignment_id", VInt (s_assignment_id r.1.2));
                   ("student_id", VInt (s_student_id r.1.2));
                   ("file_path", opt_value VStr (s_file_path r.1.2));
                   ("content", VStr (s_content r.1.2));
                   ("grade", opt_value VNum (s_grade r.1.2));
                   ("feedback", opt_value VStr (s_feedback r.1.2));
                   ("submitted_at", VTime (s_submitted_at r.1.2));
                   ("graded_at", opt_value VTime (s_graded_at r.1.2));
                   ("student_name", VStr (u_full_name r.2));
                   ("student_email", VStr (u_email r.2))]) <$> l), w) /\
    StronglySorted (fun a b => s_submitted_at b.1.2 <= s_submitted_at a.1.2) l /\
    forall k s u, (k, s, u) ∈ l <->
                  rows (submissions (db w)) !! k = Some s /\
                  s_assignment_id s = assignment_id /\
                  rows (users (db w)) !! s_student_id s = Some u.
Proof.
  exists (submissions_rows assignment_id (db w)). split; [done|].
  destruct (listing_spec (fun r => s_assignment_id r = assignment_id)
              (fun ks => s_submitted_at ks.2) (submissions (db w)))
    as (Hsorted & _ & Hin).
  split.
  - unfold submissions_rows. eapply StronglySorted_omap; [|exact Hsorted].
    intros [k s] [k' s'] [[? ?] ?] [[? ?] ?]. simpl.
    destruct (rows (users (db w)) !! s_student_id s); simpl; [|done].
    destruct (rows (users (db w)) !! s_student_id s'); simpl; [|done].
    by intros [= <- <- <-] [= <- <- <-].
  - intros k s u. unfold submissions_rows. rewrite list_elem_of_omap. split.
    + intros ([k' s'] & Hks & Hrow). apply Hin in Hks as [Hk Ha].
      simpl in Hrow.
      destruct (rows (users (db w)) !! s_student_id s') eqn:Hu;
        simpl in Hrow; [|done].
      by injection Hrow as -> -> ->.
    + intros (Hk & Ha & Hu). exists (k, s). split; [by apply Hin|].
      simpl. by rewrite Hu.
Qed.

(** ** Materials *)

Lemma get_material_found w material_id m :
  rows (materials (db w)) !! material_id = Some m ->
  get_material material_id w = (Ok (material_dict material_id m), w).
Proof. intros Hm. unfold get_material. run_handler. by rewrite Hm. Qed.

Lemma get_announcement_found w announcement_id n :
  rows (announcements (db w)) !! announcement_id = Some n ->
  get_announcement announcement_id w =
  (Ok (announcement_dict announcement_id n), w).
Proof. intros Hn. unfold get_announcement. run_handler. by rewrite Hn. Qed.

Lemma upload_material_run w clk course_id title f c :
  rows (courses (db w)) !! course_id = Some c ->
  accepts (lstrip [slash] (material_path clk course_id f)) = true ->
  upload_material clk course_id title f w =
  (Ok (success "Material uploaded"),
   mkWorld
     (set_materials
        (insert_row (mkMaterial course_id title (material_path clk course_id f)
                                (classify (UploadFile.filename f)) (sql_now clk))
                    (materials (db w))).2 (db w))
     (<[lstrip [slash] (material_path clk course_id f) := UploadFile.file f]>
        (disk w))).
Proof.
  intros Hc Hacc. unfold upload_material. run_handler. settle_write Hacc. simpl.
  unfold insert_material, has_id.
  simpl. by rewrite bool_decide_eq_true_2 by eauto.
Qed.

Lemma upload_material_refused w clk course_id title f :
  accepts (lstrip [slash] (material_path clk course_id f)) = false ->
  exists detail,
    upload_material clk course_id title f w =
    (Raise (HTTPException 500 detail), w).
Proof.
  intros Hacc. unfold upload_material. run_handler. settle_write Hacc.
  by eexists.
Qed.

(** The upload named [d.pdf/x] would go into a directory that is not
    there: the request is answered with 500 and nothing is stored. *)
Example upload_material_slash_name :
  upload_material Tour.clk2 1 "Deck" (UploadFile.mk "d.pdf/x" Scenario.pdf_bytes)
                  Tour.two_courses =
  (Raise (HTTPException 500
            "[Errno 2] No such file or directory: 'uploads/materials/material_1_1700000600.75_d.pdf/x'"),
   Tour.two_courses).
Proof. vm_compute. reflexivity. Qed.

(** X14: when uploading a material to an existing course is answered with
    success, the material is stored under the next id: fetching it shows
    the title, the type read off the file name and the stored path, the
    uploaded bytes are on disk under that path, and the course's materials
    list contains it. *)
Theorem upload_material_round_trip w clk course_id title f c v :
  rows (courses (db w)) !! course_id = Some c ->
  (upload_material clk course_id title f w).1 = Ok v ->
  let w' := after (upload_material clk course_id title f) w in
  let k := next_id (materials (db w)) in
  let m := mkMaterial course_id title (material_path clk course_id f)
                      (classify (UploadFile.filename f)) (sql_now clk) in
  v = success "Material uploaded" /\
  get_material k w' = (Ok (material_dict k m), w') /\
  disk w' !! lstrip [slash] (m_file_path m) = Some (UploadFile.file f) /\
  exists l, get_materials course_id w' = (Ok l, w') /\ material_dict k m ∈ l.
Proof.
  intros Hc Hok w' k m.
  assert (Hacc : accepts (lstrip [slash] (material_path clk course_id f)) = true).
  { destruct (accepts _) eqn:Hacc; [done|].
    destruct (upload_material_refused w clk course_id title f Hacc)
      as [detail Hrun].
    by rewrite Hrun in Hok. }
  pose proof (upload_material_run w clk course_id title f c Hc Hacc) as Hrun.
  assert (Hw' : w' = (upload_material clk course_id title f w).2) by done.
  rewrite Hrun in Hw', Hok. simpl in Hw', Hok.
  assert (Hk : rows (materials (db w')) !! k = Some m).
  { rewrite Hw'. simpl. apply lookup_insert_eq. }
  split; [by injection Hok as <-|]. split; [|split].
  - unfold get_material. run_handler. by rewrite Hk.
  - rewrite Hw'. simpl. apply lookup_insert_eq.
  - eexists. split; [reflexivity|]. simpl.
    apply (list_elem_of_fmap_2 (fun km => material_dict km.1 km.2) _ (k, m)).
    unfold materials_rows. apply elem_of_order_by_desc. by apply elem_of_select.
Qed.

Lemma upload_material_round_trip_witness :
  let w := Tour.sam_enrolled in
  let upload := UploadFile.mk "notes.Pdf" Scenario.pdf_bytes in
  let w' := after (upload_material Tour.clk3 1 "Notes" upload) w in
  is_Some (rows (courses (db w)) !! 1) /\
  (upload_material Tour.clk3 1 "Notes" upload w).1 =
  Ok (success "Material uploaded") /\
  get_material 1 w' =
  (Ok (VDict [("id", VInt 1); ("course_id", VInt 1); ("title", VStr "Notes");
              ("file_path",
               VStr "/uploads/materials/material_1_1700001200.5_notes.Pdf");
              ("file_type", VStr "pdf"); ("uploaded_at", VTime 1700001200)]),
   w') /\
  disk w' !! "uploads/materials/material_1_1700001200.5_notes.Pdf" =
  Some Scenario.pdf_bytes.
Proof.
  intros w upload w'.
  assert (Hc : rows (courses (db w)) !! 1 =
               Some (mkCourse "Logic" "An introduction" 1))
    by (vm_compute; reflexivity).
  assert (Hok : (upload_material Tour.clk3 1 "Notes" upload w).1 =
                Ok (success "Material uploaded")) by (vm_compute; reflexivity).
  destruct (upload_material_round_trip w Tour.clk3 1 "Notes" upload _ _ Hc Hok)
    as (_ & Hget & Hdisk & _).
  split; [by rewrite Hc|]. split; [exact Hok|]. split.
  - revert Hget. vm_compute. exact (fun H => H).
  - revert Hdisk. vm_compute. exact (fun H => H).
Defined.

(** X15: updating a material id that has no row is answered with 404 and
    changes nothing, whether or not a file came with the request. *)
Theorem update_material_missing w clk material_id title file :
  rows (materials (db w)) !! material_id = None ->
  update_material clk material_id title file w =
  (Raise (HTTPException 404 "Material not found"), w).
Proof. intros Hm. unfold update_material. run_handler. by rewrite Hm. Qed.

Lemma update_material_missing_witness :
  rows (materials (db Tour.two_materials)) !! 5 = None /\
  update_material Tour.clk3 5 "Ghost"
    (Some (UploadFile.mk "ghost.pdf" Scenario.pdf_bytes)) Tour.two_materials =
  (Raise (HTTPException 404 "Material not found"), Tour.two_materials).
Proof.
  assert (Hm : rows (materials (db Tour.two_materials)) !! 5 = None)
    by (vm_compute; reflexivity).
  split; [exact Hm|].
  exact (update_material_missing Tour.two_materials Tour.clk3 5 "Ghost" _ Hm).
Defined.

(** X16: when updating an existing material with a new file is answered
    with success, the material keeps its course and upload time, has the
    new title, path and type, the new bytes are on disk under the new
    path, the file under the old path is removed (unless the two paths
    coincide) and no other file is touched. *)
Theorem update_material_with_file w clk material_id title f m v :
  rows (materials (db w)) !! material_id = Some m ->
  (update_material clk material_id title (Some f) w).1 = Ok v ->
  let w' := after (update_material clk material_id title (Some f)) w in
  let old_path := lstrip [slash] (m_file_path m) in
  let new_path := lstrip [slash] (material_path clk (m_course_id m) f) in
  v = success "Material updated" /\
  get_material material_id w' =
  (Ok (material_dict material_id
         (mkMaterial (m_course_id m) title
                     (material_path clk (m_course_id m) f)
                     (classify (UploadFile.filename f)) (m_uploaded_at m))), w') /\
  disk w' !! new_path = Some (UploadFile.file f) /\
  (old_path <> new_path -> disk w' !! old_path = None) /\
  (forall p, p <> old_path -> p <> new_path -> disk w' !! p = disk w !! p).
Proof.
  intros Hm Hok w' old_path new_path.
  destruct (update_material_replaces_file w clk material_id title f m v Hm Hok)
    as (Hv & Hdisk & Hrows).
  fold w' in Hdisk, Hrows. fold old_path new_path in Hdisk.
  split; [done|]. split; [|split; [|split]].
  - unfold get_material. run_handler. by rewrite Hrows, lookup_insert_eq.
  - rewrite Hdisk. apply lookup_insert_eq.
  - intros Hne. rewrite Hdisk, lookup_insert_ne by done. apply lookup_delete_eq.
  - intros p Hold Hnew. by rewrite Hdisk, lookup_insert_ne, lookup_delete_ne.
Qed.

Lemma update_material_with_file_witness :
  let w := Tour.two_materials in
  let upload := UploadFile.mk "slides-v2.pdf" Scenario.pdf_bytes in
  let w' := after (update_material Tour.clk3 1 "Slides (new)" (Some upload)) w in
  is_Some (rows (materials (db w)) !! 1) /\
  (update_material Tour.clk3 1 "Slides (new)" (Some upload) w).1 =
  Ok (success "Material updated") /\
  disk w' !! "uploads/materials/material_1_1700001200.5_slides-v2.pdf" =
  Some Scenario.pdf_bytes /\
  disk w' !! "uploads/materials/material_1_1700000000.25_slides.pdf" = None.
Proof.
  intros w upload w'.
  assert (Hm : rows (materials (db w)) !! 1 =
               Some (mkMaterial 1 "Slides"
                       "/uploads/materials/material_1_1700000000.25_slides.pdf"
                       "pdf" 1700000000)) by (vm_compute; reflexivity).
  assert (Hok : (update_material Tour.clk3 1 "Slides (new)" (Some upload) w).1 =
                Ok (success "Material updated")) by (vm_compute; reflexivity).
  destruct (update_material_with_file w Tour.clk3 1 "Slides (new)" upload _ _
              Hm Hok) as (_ & _ & Hnew & Hold & _).
  split; [by rewrite Hm|]. split; [exact Hok|]. split.
  - revert Hnew. vm_compute. exact (fun H => H).
  - assert (Hne : lstrip [slash]
                    "/uploads/materials/material_1_1700000000.25_slides.pdf" <>
                  lstrip [slash] (material_path Tour.clk3 1 upload))
      by by vm_compute.
    generalize (Hold Hne). vm_compute. exact (fun H => H).
Defined.

(** X17: updating an existing material without a file changes its title
    and nothing else: path, type, course and upload time stay, and so does
    the upload directory. *)
Theorem update_material_title_only w clk material_id title m :
  rows (materials (db w)) !! material_id = Some m ->
  let w' := after (update_material clk material_id title None) w in
  (update_material clk material_id title None w).1 =
  Ok (success "Material updated") /\
  rows (materials (db w')) =
  <[material_id := mkMaterial (m_course_id m) title (m_file_path m)
                              (m_file_type m) (m_uploaded_at m)]>
    (rows (materials (db w))) /\
  disk w' = disk w /\
  get_material material_id w' =
  (Ok (VDict [("id", VInt material_id); ("course_id", VInt (m_course_id m));
              ("title", VStr title); ("file_path", VStr (m_file_path m));
              ("file_type", VStr (m_file_type m));
              ("uploaded_at", VTime (m_uploaded_at m))]), w').
Proof.
  intros Hm w'.
  assert (Hrun : update_material clk material_id title None w =
    (Ok (success "Material updated"),
     mkWorld
       (set_materials
          (mkTable (<[material_id := mkMaterial (m_course_id m) title
                        (m_file_path m) (m_file_type m) (m_uploaded_at m)]>
                      (rows (materials (db w))))
                   (next_id (materials (db w)))) (db w))
       (disk w))).
  { unfold update_material. run_handler. rewrite Hm. simpl.
    by rewrite (update_row_present _ _ _ _ Hm). }
  subst w'. unfold after. rewrite Hrun. simpl. repeat split.
  apply (get_material_found _ material_id
           (mkMaterial (m_course_id m) title (m_file_path m) (m_file_type m)
                       (m_uploaded_at m))).
  simpl. apply lookup_insert_eq.
Qed.

Lemma update_material_title_only_witness :
  let w := Tour.two_materials in
  let w' := after (update_material Tour.clk3 2 "Lecture 1" None) w in
  is_Some (rows (materials (db w)) !! 2) /\
  disk w' = disk w /\
  get_material 2 w' =
  (Ok (VDict [("id", VInt 2); ("course_id", VInt 1); ("title", VStr "Lecture 1");
              ("file_path",
               VStr "/uploads/materials/material_1_1700000600.75_week1.MP4");
              ("file_type", VStr "video"); ("uploaded_at", VTime 1700000600)]),
   w').
Proof.
  intros w w'.
  assert (Hm : rows (materials (db w)) !! 2 =
               Some (mkMaterial 1 "Lecture"
                       "/uploads/materials/material_1_1700000600.75_week1.MP4"
                       "video" 1700000600)) by (vm_compute; reflexivity).
  destruct (update_material_title_only w Tour.clk3 2 "Lecture 1" _ Hm)
    as (_ & _ & Hdisk & Hget).
  split; [by rewrite Hm|]. split; [exact Hdisk | exact Hget].
Defined.

(** ** Announcements *)

(** X18: an announcement created for an existing course is stored under
    the next id with the given title and content and the current time, and
    the course's announcements list contains it. *)
Theorem create_announcement_round_trip w clk course_id announcement c :
  rows (courses (db w)) !! course_id = Some c ->
  let w' := after (create_announcement clk course_id announcement) w in
  let k := next_id (announcements (db w)) in
  let n := mkAnnouncement course_id (Announcement.title announcement)
                          (Announcement.content announcement) (sql_now clk) in
  (create_announcement clk course_id announcement w).1 =
  Ok (success "Announcement created") /\
  get_announcement k w' =
  (Ok (VDict [("id", VInt k); ("course_id", VInt course_id);
              ("title", VStr (Announcement.title announcement));
              ("content", VStr (Announcement.content announcement));
              ("created_at", VTime (sql_now clk))]), w') /\
  exists l, get_announcements course_id w' = (Ok l, w') /\
            announcement_dict k n ∈ l.
Proof.
  intros Hc w' k n. subst w'.
  unfold after, create_announcement. run_handler.
  unfold insert_announcement, has_id. simpl.
  rewrite bool_decide_eq_true_2 by eauto. simpl.
  split; [done|]. split.
  - unfold get_announcement. run_handler. by rewrite lookup_insert_eq.
  - eexists. split; [reflexivity|]. simpl.
    apply (list_elem_of_fmap_2 (fun kn => announcement_dict kn.1 kn.2) _ (k, n)).
    unfold announcements_rows. apply elem_of_order_by_desc.
    apply elem_of_select. split; [|done]. apply lookup_insert_eq.
Qed.

Lemma create_announcement_round_trip_witness :
  let w := Tour.two_materials in
  let w' := after (create_announcement Tour.clk3 1
                     (Announcement.mk "Exam" "On Friday")) w in
  is_Some (rows (courses (db w)) !! 1) /\
  get_announcement 1 w' =
  (Ok (VDict [("id", VInt 1); ("course_id", VInt 1); ("title", VStr "Exam");
              ("content", VStr "On Friday");
              ("created_at", VTime 1700001200)]), w').
Proof.
  intros w w'.
  assert (Hc : rows (courses (db w)) !! 1 =
               Some (mkCourse "Logic" "An introduction" 1))
    by (vm_compute; reflexivity).
  split; [by rewrite Hc|].
  exact (proj1 (proj2 (create_announcement_round_trip w Tour.clk3 1
                         (Announcement.mk "Exam" "On Friday") _ Hc))).
Defined.

(** X19: updating an existing announcement replaces its title and content
    and keeps its course and creation time; updating an id that has no row
    is answered with success and changes nothing. *)
Theorem update_announcement_effect w announcement_id announcement :
  let w' := after (update_announcement announcement_id announcement) w in
  (update_announcement announcement_id announcement w).1 =
  Ok (success "Announcement updated") /\
  (forall n, rows (announcements (db w)) !! announcement_id = Some n ->
     get_announcement announcement_id w' =
     (Ok (VDict [("id", VInt announcement_id);
                 ("course_id", VInt (n_course_id n));
                 ("title", VStr (Announcement.title announcement));
                 ("content", VStr (Announcement.content announcement));
                 ("created_at", VTime (n_created_at n))]), w')) /\
  (rows (announcements (db w)) !! announcement_id = None -> w' = w).
Proof.
  intros w'. subst w'. unfold after, update_announcement. run_handler.
  split; [done|]. split.
  - intros n Hn. unfold get_announcement. run_handler.
    by rewrite lookup_alter_eq, Hn.
  - intros Hn. rewrite (update_row_missing _ _ _ Hn), set_announcements_same.
    apply world_eta.
Qed.

Lemma update_announcement_effect_witness :
  let w := Tour.two_announcements in
  let edit := Announcement.mk "Room change" "Now in C3" in
  get_announcement 2 (after (update_announcement 2 edit) w) =
  (Ok (VDict [("id", VInt 2); ("course_id", VInt 1);
              ("title", VStr "Room change"); ("content", VStr "Now in C3");
              ("created_at", VTime 1700000600)]),
   after (update_announcement 2 edit) w) /\
  after (update_announcement 7 edit) w = w.
Proof.
  intros w edit. split.
  - apply (proj1 (proj2 (update_announcement_effect w 2 edit))
             (mkAnnouncement 1 "Room" "Now in B12" 1700000600)).
    vm_compute. reflexivity.
  - apply (proj2 (proj2 (update_announcement_effect w 7 edit))).
    vm_compute. reflexivity.
Defined.

(** X20: deleting an announcement is answered with success; afterwards
    fetching it gives 404, every other announcement is as before, and
    deleting an id that has no row changes nothing. *)
Theorem delete_announcement_effect w announcement_id :
  let w' := after (delete_announcement announcement_id) w in
  (delete_announcement announcement_id w).1 =
  Ok (success "Announcement deleted") /\
  get_announcement announcement_id w' =
  (Raise (HTTPException 404 "Announcement not found"), w') /\
  (forall k, k <> announcement_id ->
             rows (announcements (db w')) !! k = rows (announcements (db w)) !! k) /\
  (rows (announcements (db w)) !! announcement_id = None -> w' = w).
Proof.
  intros w'. subst w'. unfold after, delete_announcement. run_handler.
  split; [done|]. split; [|split].
  - apply get_announcement_missing. simpl. apply lookup_delete_eq.
  - intros k Hk. by apply lookup_delete_ne.
  - intros Hn. rewrite (delete_row_missing _ _ Hn), set_announcements_same.
    apply world_eta.
Qed.

Lemma delete_announcement_effect_witness :
  let w := Tour.two_announcements in
  rows (announcements (db (after (delete_announcement 1) w))) !! 2 =
  rows (announcements (db w)) !! 2 /\
  after (delete_announcement 7) w = w.
Proof.
  intros w. split.
  - apply (proj1 (proj2 (proj2 (delete_announcement_effect w 1)))). lia.
  - apply (proj2 (proj2 (proj2 (delete_announcement_effect w 7)))).
    vm_compute. reflexivity.
Defined.


(** ** Assignments *)

(** X21: creating an assignment for a course id that has no row is
    answered with 404 before anything is written: the store and the upload
    directory stay as they were, even when a file came with the request. *)
Theorem create_assignment_missing_course w clk course_id title description
    due_date file :
  rows (courses (db w)) !! course_id = None ->
  create_assignment clk course_id title description due_date file w =
  (Raise (HTTPException 404
            ("Course with id " +:+ pretty course_id +:+ " not found")), w).
Proof. intros Hc. unfold create_assignment. run_handler. by rewrite Hc. Qed.

Lemma create_assignment_missing_course_witness :
  rows (courses (db Tour.two_courses)) !! 9 = None /\
  create_assignment Tour.clk1 9 "Homework" "Do it" None
    (Some (UploadFile.mk "hw.pdf" Scenario.pdf_bytes)) Tour.two_courses =
  (Raise (HTTPException 404 "Course with id 9 not found"), Tour.two_courses).
Proof.
  assert (Hc : rows (courses (db Tour.two_courses)) !! 9 = None)
    by (vm_compute; reflexivity).
  split; [exact Hc|].
  exact (create_assignment_missing_course Tour.two_courses Tour.clk1 9
           "Homework" "Do it" None _ Hc).
Defined.

Lemma get_assignment_details_found w assignment_id a c u :
  rows (assignments (db w)) !! assignment_id = Some a ->
  rows (courses (db w)) !! a_course_id a = Some c ->
  rows (users (db w)) !! c_instructor_id c = Some u ->
  get_assignment_details assignment_id None w =
  (Ok (VDict (assignment_dict assignment_id a ++
              [("course_title", VStr (c_title c));
               ("instructor_name", VStr (u_full_name u))])), w).
Proof.
  intros Ha Hc Hu. unfold get_assignment_details. run_handler.
  rewrite Ha. simpl. rewrite Hc. simpl. by rewrite Hu.
Qed.

(** X22: when creating an assignment for an existing course whose
    instructor has a users row is answered with success, the answer carries
    the new id; the detail under that id shows the given title, description
    and due date, the stored path of the instruction file (or none), the
    course title and the instructor's name; a file that came with the
    request is on disk under the stored path.  A request without a file is
    answered with success. *)
Theorem create_assignment_round_trip w clk course_id title description
    due_date file c u v :
  rows (courses (db w)) !! course_id = Some c ->
  rows (users (db w)) !! c_instructor_id c = Some u ->
  (create_assignment clk course_id title description due_date file w).1 = Ok v ->
  let w' := after (create_assignment clk course_id title description
                     due_date file) w in
  let k := next_id (assignments (db w)) in
  let stored := assignment_path clk course_id <$> file in
  v = VDict [("success", VBool true); ("assignment_id", VInt k);
             ("message", VStr "Assignment created")] /\
  get_assignment_details k None w' =
  (Ok (VDict [("id", VInt k); ("course_id", VInt course_id);
              ("title", VStr title); ("description", VStr description);
              ("due_date", opt_value VStr due_date);
              ("instruction_file", opt_value VStr stored);
              ("created_at", VTime (sql_now clk));
              ("course_title", VStr (c_title c));
              ("instructor_name", VStr (u_full_name u))]), w') /\
  (forall f, file = Some f ->
     disk w' !! lstrip [slash] (assignment_path clk course_id f) =
     Some (UploadFile.file f)).
Proof.
  intros Hc Hu Hok w' k stored.
  assert (Hacc : upload_accepted (assignment_path clk course_id) file = true).
  { destruct (upload_accepted _ file) eqn:Hacc; [done|]. exfalso.
    revert Hok. unfold create_assignment. destruct file as [f|]; [|done].
    run_handler. rewrite Hc. simpl. by settle_write Hacc. }
  assert (Hrun : create_assignment clk course_id title description due_date
                   file w =
    (Ok (VDict [("success", VBool true); ("assignment_id", VInt k);
                ("message", VStr "Assignment created")]),
     mkWorld
       (set_assignments
          (insert_row (mkAssignment course_id title description due_date
                                    stored (sql_now clk))
                      (assignments (db w))).2 (db w))
       (match file with
        | Some f => <[lstrip [slash] (assignment_path clk course_id f)
                      := UploadFile.file f]> (disk w)
        | None => disk w
        end))).
  { unfold create_assignment. run_handler. rewrite Hc.
    destruct file as [f|]; simpl; try settle_write Hacc; simpl;
      unfold insert_assignment, has_id; simpl;
      by rewrite bool_decide_eq_true_2 by eauto. }
  subst w'. unfold after. rewrite Hrun in Hok |- *. simpl in Hok |- *.
  split; [by injection Hok as <-|]. split.
  - apply (get_assignment_details_found _ k
             (mkAssignment course_id title description due_date stored
                           (sql_now clk)) c u); simpl; [|done..].
    apply lookup_insert_eq.
  - intros f ->. apply lookup_insert_eq.
Qed.

Lemma create_assignment_round_trip_witness :
  let w := Tour.two_courses in
  let upload := UploadFile.mk "hw2.pdf" Scenario.pdf_bytes in
  let w' := after (create_assignment Tour.clk2 2 "Homework 2" "Induction"
                     (Some "2024-02-29") (Some upload)) w in
  is_Some (rows (courses (db w)) !! 2) /\
  (create_assignment Tour.clk2 2 "Homework 2" "Induction" (Some "2024-02-29")
     (Some upload) w).1 =
  Ok (VDict [("success", VBool true); ("assignment_id", VInt 1);
             ("message", VStr "Assignment created")]) /\
  get_assignment_details 1 None w' =
  (Ok (VDict [("id", VInt 1); ("course_id", VInt 2);
              ("title", VStr "Homework 2"); ("description", VStr "Induction");
              ("due_date", VStr "2024-02-29");
              ("instruction_file",
               VStr "/uploads/materials/assignment_2_1700000600.75_hw2.pdf");
              ("created_at", VTime 1700000600);
              ("course_title", VStr "Proofs");
              ("instructor_name", VStr "Ada Teacher")]), w') /\
  disk w' !! "uploads/materials/assignment_2_1700000600.75_hw2.pdf" =
  Some Scenario.pdf_bytes.
Proof.
  intros w upload w'.
  assert (Hc : rows (courses (db w)) !! 2 =
               Some (mkCourse "Proofs" "Natural deduction" 1))
    by (vm_compute; reflexivity).
  assert (Hu : rows (users (db w)) !!
                 c_instructor_id (mkCourse "Proofs" "Natural deduction" 1) =
               Some (mkUser "ada@example.org" (hash_password "s3cret")
                            "Ada Teacher" "instructor" None))
    by (vm_compute; reflexivity).
  assert (Hok : (create_assignment Tour.clk2 2 "Homework 2" "Induction"
                   (Some "2024-02-29") (Some upload) w).1 =
                Ok (VDict [("success", VBool true); ("assignment_id", VInt 1);
                           ("message", VStr "Assignment created")]))
    by (vm_compute; reflexivity).
  destruct (create_assignment_round_trip w Tour.clk2 2 "Homework 2" "Induction"
              (Some "2024-02-29") (Some upload) _ _ _ Hc Hu Hok)
    as (_ & Hget & Hdisk).
  split; [by rewrite Hc|]. split; [exact Hok|]. split.
  - revert Hget. vm_compute. exact (fun H => H).
  - generalize (Hdisk upload eq_refl). vm_compute. exact (fun H => H).
Defined.

(** X23: an update of an assignment that is answered with success gives an
    existing row the new title, description and due date, keeps its course
    and creation time, and keeps its instruction file unless a file came
    with the request, which is then on disk under the stored path.  For an
    id that has no row the store is unchanged whatever the answer, and a
    file that came with a request answered with success is written to the
    upload directory all the same.  A request without a file is answered
    with success. *)
Theorem update_assignment_effect w clk assignment_id title description
    due_date file :
  let w' := after (update_assignment clk assignment_id title description
                     due_date file) w in
  (file = None ->
   (update_assignment clk assignment_id title description due_date file w).1 =
   Ok (success "Assignment updated")) /\
  (rows (assignments (db w)) !! assignment_id = None -> db w' = db w) /\
  (forall v,
     (update_assignment clk assignment_id title description due_date file w).1
     = Ok v ->
     v = success "Assignment updated" /\
     disk w' =
     match file with
     | Some f => <[lstrip [slash] (assignment_path clk assignment_id f)
                   := UploadFile.file f]> (disk w)
     | None => disk w
     end /\
     forall a, rows (assignments (db w)) !! assignment_id = Some a ->
       rows (assignments (db w')) =
       <[assignment_id :=
           mkAssignment (a_course_id a) title description due_date
             (match file with
              | Some f => Some (assignment_path clk assignment_id f)
              | None => a_instruction_file a
              end) (a_created_at a)]> (rows (assignments (db w)))).
Proof.
  intros w'. subst w'. unfold after, update_assignment.
  destruct file as [f|]; run_handler.
  - destruct (accepts _) eqn:Hacc; simpl.
    + split; [done|]. split.
      { intros Ha. by rewrite (update_row_missing _ _ _ Ha), set_assignments_same. }
      intros v [= <-]. split; [done|]. split; [done|].
      intros a Ha. by rewrite (alter_present _ _ _ _ Ha).
    + split; [done|]. split; [done|]. by intros v.
  - split; [done|]. split.
    { intros Ha. by rewrite (update_row_missing _ _ _ Ha), set_assignments_same. }
    intros v [= <-]. split; [done|]. split; [done|].
    intros a Ha. by rewrite (alter_present _ _ _ _ Ha).
Qed.

Lemma update_assignment_effect_witness :
  let w := Tour.one_assignment in
  let upload := UploadFile.mk "hw1-v2.pdf" Scenario.pdf_bytes in
  let w' := after (update_assignment Tour.clk3 1 "Homework 1b" "Prove it twice"
                     None (Some upload)) w in
  (update_assignment Tour.clk3 1 "Homework 1b" "Prove it twice" None
     (Some upload) w).1 = Ok (success "Assignment updated") /\
  rows (assignments (db w')) !! 1 =
  Some (mkAssignment 1 "Homework 1b" "Prove it twice" None
          (Some "/uploads/materials/assignment_1_1700001200.5_hw1-v2.pdf")
          1700000000) /\
  disk w' !! "uploads/materials/assignment_1_1700001200.5_hw1-v2.pdf" =
  Some Scenario.pdf_bytes /\
  db (after (update_assignment Tour.clk3 8 "Nothing" "None" None (Some upload)) w)
  = db w.
Proof.
  intros w upload w'.
  assert (Hok : (update_assignment Tour.clk3 1 "Homework 1b" "Prove it twice"
                   None (Some upload) w).1 = Ok (success "Assignment updated"))
    by (vm_compute; reflexivity).
  assert (Ha : rows (assignments (db w)) !! 1 =
               Some (mkAssignment 1 "Homework 1" "Prove it" (Some "2024-01-31")
                       (Some "/uploads/materials/assignment_1_1700000000.25_hw1.pdf")
                       1700000000)) by (vm_compute; reflexivity).
  destruct (update_assignment_effect w Tour.clk3 1 "Homework 1b"
              "Prove it twice" None (Some upload)) as (_ & _ & Hsucc).
  destruct (Hsucc _ Hok) as (_ & Hdisk & Hrows).
  split; [exact Hok|]. split; [|split].
  - fold w' in Hrows. rewrite (Hrows _ Ha). apply lookup_insert_eq.
  - fold w' in Hdisk. rewrite Hdisk. apply lookup_insert_eq.
  - apply (proj1 (proj2 (update_assignment_effect w Tour.clk3 8 "Nothing"
                           "None" None (Some upload)))).
    vm_compute. reflexivity.
Defined.

(** ** Submissions *)

Lemma submit_assignment_disk w clk assignment_id student_id content file :
  upload_accepted (submission_path clk assignment_id student_id) file = true ->
  disk (after (submit_assignment clk assignment_id student_id content file) w) =
  match file with
  | Some f => <[lstrip [slash] (submission_path clk assignment_id student_id f)
                := UploadFile.file f]> (disk w)
  | None => disk w
  end.
Proof.
  intros Hacc. unfold after, submit_assignment.
  destruct file as [f|]; run_handler; try settle_write Hacc;
    unfold upsert_submission; simpl;
    destruct (select _ (submissions (db w))) as [|[k r] l]; simpl; try done;
    by destruct (has_id assignment_id _ && has_id student_id _).
Qed.

Lemma submit_assignment_other_tables w clk assignment_id student_id content file :
  let w' := after (submit_assignment clk assignment_id student_id content file) w in
  users (db w') = users (db w) /\ courses (db w') = courses (db w) /\
  assignments (db w') = assignments (db w).
Proof.
  unfold after, submit_assignment.
  destruct file as [f|]; run_handler;
    try (destruct (accepts _); simpl; [|done]);
    unfold upsert_submission; simpl;
    destruct (select _ (submissions (db w))) as [|[k r] l]; simpl; try done;
    by destruct (has_id assignment_id _ && has_id student_id _).
Qed.

(** After a submit that succeeded the pair has one row, with the content,
    the stored path and the time of this submit. *)
Lemma submit_assignment_row w clk assignment_id student_id content file v :
  unique_on submission_key (submissions (db w)) ->
  (submit_assignment clk assignment_id student_id content file w).1 = Ok v ->
  let w' := after (submit_assignment clk assignment_id student_id content file) w in
  exists k r,
    select (fun x => s_assignment_id x = assignment_id /\
                     s_student_id x = student_id) (submissions (db w')) =
    [(k, r)] /\
    s_assignment_id r = assignment_id /\ s_student_id r = student_id /\
    s_content r = content /\
    s_file_path r = (submission_path clk assignment_id student_id <$> file) /\
    s_submitted_at r = sql_now clk.
Proof.
  intros Huniq Hok w'.
  pose proof (submit_assignment_ok_accepted _ _ _ _ _ _ _ Hok) as Hacc.
  destruct (submit_assignment_leaves_row w clk assignment_id student_id
              content file v Huniq Hok) as [Huniq' _].
  fold w' in Huniq'.
  assert (Hrow : exists k r,
    rows (submissions (db w')) !! k = Some r /\
    s_assignment_id r = assignment_id /\ s_student_id r = student_id /\
    s_content r = content /\
    s_file_path r = (submission_path clk assignment_id student_id <$> file) /\
    s_submitted_at r = sql_now clk).
  { destruct (select (fun x => s_assignment_id x = assignment_id /\
                               s_student_id x = student_id)
                     (submissions (db w))) as [|[k r] l] eqn:Hsel.
    - pose proof (proj1 (select_nil _ _) Hsel) as Hnone.
      assert (Hparents : is_Some (rows (assignments (db w)) !! assignment_id) /\
                         is_Some (rows (users (db w)) !! student_id)).
      { revert Hok. unfold submit_assignment.
        destruct file as [f|]; run_handler; try settle_write Hacc;
          unfold upsert_submission; simpl;
          rewrite Hsel; unfold has_id; simpl;
          destruct (bool_decide (is_Some (rows (assignments (db w)) !! assignment_id)))
            eqn:Ea; simpl; try discriminate;
          destruct (bool_decide (is_Some (rows (users (db w)) !! student_id)))
            eqn:Eu; simpl; try discriminate;
          intros _; apply bool_decide_eq_true in Ea, Eu; done. }
      destruct Hparents as [Ha Hu].
      destruct (submit_assignment_first w clk assignment_id student_id content
                  file Hacc Hnone Ha Hu) as [_ Hrows].
      fold w' in Hrows. eexists _, _. rewrite Hrows.
      split; [apply lookup_insert_eq|done].
    - assert (Hin : (k, r) ∈ select (fun x => s_assignment_id x = assignment_id /\
                                              s_student_id x = student_id)
                                    (submissions (db w))) by (rewrite Hsel; left).
      apply elem_of_select in Hin as [Hk [Ha Hs]].
      destruct (submit_assignment_existing_row w clk assignment_id student_id
                  content file k r Hacc Huniq Hk Ha Hs) as (_ & Hrows & _).
      fold w' in Hrows. eexists k, _. rewrite Hrows.
      split; [apply lookup_insert_eq|done]. }
  destruct Hrow as (k & r & Hk & Ha & Hs & Hrest).
  exists k, r. split; [|done].
  apply select_unique; [done..|].
  intros k' r' Hk' [Ha' Hs']. apply (Huniq' k' k r' r); [done..|].
  unfold submission_key. congruence.
Qed.

(** X24: after a submit that succeeded, the assignment detail asked for
    with that student's (nonzero) id carries the submission under
    ["submission"], with the content, the stored file path and the time of
    the submit. *)
Theorem submit_then_details w clk assignment_id student_id content file v a c u :
  unique_on submission_key (submissions (db w)) ->
  rows (assignments (db w)) !! assignment_id = Some a ->
  rows (courses (db w)) !! a_course_id a = Some c ->
  rows (users (db w)) !! c_instructor_id c = Some u ->
  student_id <> 0 ->
  (submit_assignment clk assignment_id student_id content file w).1 = Ok v ->
  let w' := after (submit_assignment clk assignment_id student_id content file) w in
  exists k r resp,
    get_assignment_details assignment_id (Some student_id) w' = (Ok resp, w') /\
    dict_get "submission" resp = Some (submission_dict k r) /\
    dict_get "title" resp = Some (VStr (a_title a)) /\
    s_assignment_id r = assignment_id /\ s_student_id r = student_id /\
    s_content r = content /\
    s_file_path r = (submission_path clk assignment_id student_id <$> file) /\
    s_submitted_at r = sql_now clk.
Proof.
  intros Huniq Ha Hc Hu Hnz Hok w'.
  destruct (submit_assignment_row w clk assignment_id student_id content file
              v Huniq Hok) as (k & r & Hsel & Hvals).
  fold w' in Hsel.
  destruct (submit_assignment_other_tables w clk assignment_id student_id
              content file) as (Husers & Hcourses & Hassignments).
  fold w' in Husers, Hcourses, Hassignments.
  assert (Htruthy : (student_id =? 0) = false) by by apply Z.eqb_neq.
  exists k, r. eexists. split.
  - unfold get_assignment_details. run_handler.
    rewrite Hassignments, Ha. simpl. rewrite Hcourses, Hc. simpl.
    rewrite Husers, Hu. simpl. rewrite Htruthy. simpl. rewrite Hsel. simpl.
    reflexivity.
  - done.
Qed.

Lemma submit_then_details_witness :
  let w := Tour.one_assignment in
  let upload := UploadFile.mk "answer.txt" Scenario.txt_bytes in
  let w' := after (submit_assignment Tour.clk2 1 2 "first answer" (Some upload)) w in
  (submit_assignment Tour.clk2 1 2 "first answer" (Some upload) w).1 =
  Ok (success "Assignment submitted") /\
  exists k r resp,
    get_assignment_details 1 (Some 2) w' = (Ok resp, w') /\
    dict_get "submission" resp = Some (submission_dict k r) /\
    s_content r = "first answer" /\
    s_file_path r =
    Some "/uploads/submissions/submission_1_2_1700000600.75_answer.txt".
Proof.
  intros w upload w'.
  assert (Hok : (submit_assignment Tour.clk2 1 2 "first answer" (Some upload) w).1
                = Ok (success "Assignment submitted")) by (vm_compute; reflexivity).
  assert (Huniq : unique_on submission_key (submissions (db w))).
  { apply unique_on_NoDup. apply (bool_decide_unpack _). vm_compute. exact I. }
  assert (Ha : rows (assignments (db w)) !! 1 =
               Some (mkAssignment 1 "Homework 1" "Prove it" (Some "2024-01-31")
                       (Some "/uploads/materials/assignment_1_1700000000.25_hw1.pdf")
                       1700000000)) by (vm_compute; reflexivity).
  assert (Hc : rows (courses (db w)) !! 1 =
               Some (mkCourse "Logic" "An introduction" 1))
    by (vm_compute; reflexivity).
  assert (Hu : rows (users (db w)) !! 1 =
               Some (mkUser "ada@example.org" (hash_password "s3cret")
                            "Ada Teacher" "instructor" None))
    by (vm_compute; reflexivity).
  assert (Hnz : 2 <> 0) by lia.
  destruct (submit_then_details w Tour.clk2 1 2 "first answer" (Some upload)
              _ _ _ _ Huniq Ha Hc Hu Hnz Hok)
    as (k & r & resp & Hget & Hsub & _ & _ & _ & Hcontent & Hpath & _).
  split; [exact Hok|]. exists k, r, resp.
  split; [exact Hget|]. split; [exact Hsub|]. split; [exact Hcontent|].
  rewrite Hpath. vm_compute. reflexivity.
Defined.

(** X25: when a first and a second submit of the same pair, each with a
    file, are both answered with success and the two files are stored under
    different paths, the file of the first submit is still on disk after the
    second, next to the second file, although the one row of the pair now
    names the second file only. *)
Theorem resubmit_keeps_first_file w clk1 clk2 assignment_id student_id
    content1 f1 content2 f2 v v2 :
  unique_on submission_key (submissions (db w)) ->
  (submit_assignment clk1 assignment_id student_id content1 (Some f1) w).1 = Ok v ->
  (submit_assignment clk2 assignment_id student_id content2 (Some f2)
     (after (submit_assignment clk1 assignment_id student_id content1
               (Some f1)) w)).1 = Ok v2 ->
  submission_path clk1 assignment_id student_id f1 <>
  submission_path clk2 assignment_id student_id f2 ->
  let w1 := after (submit_assignment clk1 assignment_id student_id content1
                     (Some f1)) w in
  let w2 := after (submit_assignment clk2 assignment_id student_id content2
                     (Some f2)) w1 in
  disk w2 !! lstrip [slash] (submission_path clk1 assignment_id student_id f1) =
  Some (UploadFile.file f1) /\
  disk w2 !! lstrip [slash] (submission_path clk2 assignment_id student_id f2) =
  Some (UploadFile.file f2) /\
  exists k r,
    select (fun x => s_assignment_id x = assignment_id /\
                     s_student_id x = student_id) (submissions (db w2)) =
    [(k, r)] /\
    s_file_path r = Some (submission_path clk2 assignment_id student_id f2).
Proof.
  intros Huniq Hok Hok2 Hne w1 w2.
  pose proof (submit_assignment_ok_accepted _ _ _ _ _ _ _ Hok) as Hacc1.
  pose proof (submit_assignment_ok_accepted _ _ _ _ _ _ _ Hok2) as Hacc2.
  destruct (submit_assignment_leaves_row w clk1 assignment_id student_id
              content1 (Some f1) v Huniq Hok) as (Huniq1 & k & r1 & Hk & Ha & Hs).
  fold w1 in Huniq1, Hk.
  destruct (submit_assignment_existing_row w1 clk2 assignment_id student_id
              content2 (Some f2) k r1 Hacc2 Huniq1 Hk Ha Hs)
    as (_ & _ & _ & Honly & _).
  fold w2 in Honly.
  pose proof (submit_assignment_disk w clk1 assignment_id student_id content1
                (Some f1) Hacc1) as Hd1.
  pose proof (submit_assignment_disk w1 clk2 assignment_id student_id content2
                (Some f2) Hacc2) as Hd2.
  fold w1 in Hd1. fold w1 w2 in Hd2. simpl in Hd1, Hd2.
  split; [|split].
  - rewrite Hd2, lookup_insert_ne.
    + rewrite Hd1. apply lookup_insert_eq.
    + intros Heq. apply Hne.
      assert (Hcut : forall clk f,
        submission_path clk assignment_id student_id f =
        String slash (lstrip [slash]
                        (submission_path clk assignment_id student_id f)))
        by reflexivity.
      rewrite (Hcut clk1 f1), (Hcut clk2 f2). f_equal. symmetry. exact Heq.
  - rewrite Hd2. apply lookup_insert_eq.
  - eexists k, _. split; [exact Honly|done].
Qed.

Lemma resubmit_keeps_first_file_witness :
  let w := Tour.one_assignment in
  let first := UploadFile.mk "answer.txt" Scenario.txt_bytes in
  let second := UploadFile.mk "answer-v2.txt" Scenario.pdf_bytes in
  let w1 := after (submit_assignment Tour.clk2 1 2 "first answer" (Some first))
              w in
  let w2 := after (submit_assignment Tour.clk3 1 2 "second answer" (Some second))
              w1 in
  (submit_assignment Tour.clk2 1 2 "first answer" (Some first) w).1 =
  Ok (success "Assignment submitted") /\
  (submit_assignment Tour.clk3 1 2 "second answer" (Some second) w1).1 =
  Ok (success "Assignment submitted") /\
  disk w2 !! "uploads/submissions/submission_1_2_1700000600.75_answer.txt" =
  Some Scenario.txt_bytes /\
  disk w2 !! "uploads/submissions/submission_1_2_1700001200.5_answer-v2.txt" =
  Some Scenario.pdf_bytes /\
  exists k r,
    select (fun x => s_assignment_id x = 1 /\ s_student_id x = 2)
           (submissions (db w2)) = [(k, r)] /\
    s_file_path r =
    Some "/uploads/submissions/submission_1_2_1700001200.5_answer-v2.txt".
Proof.
  intros w first second w1 w2.
  assert (Hok : (submit_assignment Tour.clk2 1 2 "first answer" (Some first) w).1
                = Ok (success "Assignment submitted")) by (vm_compute; reflexivity).
  assert (Hok2 : (submit_assignment Tour.clk3 1 2 "second answer" (Some second)
                    (after (submit_assignment Tour.clk2 1 2 "first answer"
                              (Some first)) w)).1
                 = Ok (success "Assignment submitted"))
    by (vm_compute; reflexivity).
  assert (Huniq : unique_on submission_key (submissions (db w))).
  { apply unique_on_NoDup. apply (bool_decide_unpack _). vm_compute. exact I. }
  assert (Hne : submission_path Tour.clk2 1 2 first <>
                submission_path Tour.clk3 1 2 second) by by vm_compute.
  destruct (resubmit_keeps_first_file w Tour.clk2 Tour.clk3 1 2 "first answer"
              first "second answer" second _ _ Huniq Hok Hok2 Hne)
    as (Hfirst & Hsecond & k & r & Hsel & Hpath).
  split; [exact Hok|]. split; [exact Hok2|]. split; [|split].
  - revert Hfirst. vm_compute. exact (fun H => H).
  - revert Hsecond. vm_compute. exact (fun H => H).
  - exists k, r. split; [exact Hsel|]. rewrite Hpath. vm_compute. reflexivity.
Defined.

(** ** What the handlers leave alone *)

(** X26: the endpoints that only read (login, the single-resource fetches
    and the lists) return the world they were given, whatever they
    answer. *)
Theorem reading_changes_nothing w :
  (forall user, after (login user) w = w) /\
  (forall user_id, after (get_profile user_id) w = w) /\
  (forall course_id user_id, after (get_course course_id user_id) w = w) /\
  (forall material_id, after (get_material material_id) w = w) /\
  (forall announcement_id, after (get_announcement announcement_id) w = w) /\
  (forall assignment_id student_id,
     after (get_assignment_details assignment_id student_id) w = w) /\
  (forall user_id, after (get_all_courses user_id) w = w) /\
  (forall instructor_id, after (get_instructor_courses instructor_id) w = w) /\
  (forall student_id, after (get_enrolled_courses student_id) w = w) /\
  (forall course_id, after (get_materials course_id) w = w) /\
  (forall course_id, after (get_announcements course_id) w = w) /\
  (forall assignment_id, after (get_submissions assignment_id) w = w).
Proof.
  unfold after. repeat split.
  - intros user. unfold login. run_handler.
    by destruct (fetchone _) as [[k u]|].
  - intros user_id. unfold get_profile. run_handler.
    by destruct (rows (users (db w)) !! user_id).
  - intros course_id user_id. unfold get_course. run_handler.
    destruct (rows (courses (db w)) !! course_id) as [c|]; [|done]. simpl.
    destruct (rows (users (db w)) !! c_instructor_id c); [|done]. simpl.
    destruct user_id as [uid|]; [|done]. simpl. by destruct (uid =? 0).
  - intros material_id. unfold get_material. run_handler.
    by destruct (rows (materials (db w)) !! material_id).
  - intros announcement_id. unfold get_announcement. run_handler.
    by destruct (rows (announcements (db w)) !! announcement_id).
  - intros assignment_id student_id. unfold get_assignment_details. run_handler.
    destruct (rows (assignments (db w)) !! assignment_id) as [a|]; [|done].
    simpl. destruct (rows (courses (db w)) !! a_course_id a) as [c|]; [|done].
    simpl. destruct (rows (users (db w)) !! c_instructor_id c); [|done]. simpl.
    destruct student_id as [sid|]; [|done]. simpl. by destruct (sid =? 0).
  - intros user_id. unfold get_all_courses. run_handler.
    destruct user_id as [uid|]; [|done]. simpl. by destruct (uid =? 0).
Qed.

(** X27: a request to register, create a course, enroll, create an
    announcement or create an assignment that is answered with an error
    leaves the store as it was. *)
Theorem failed_write_keeps_store w :
  (forall user e, (register user w).1 = Raise e ->
                  db (after (register user) w) = db w) /\
  (forall course instructor_id e,
     (create_course course instructor_id w).1 = Raise e ->
     db (after (create_course course instructor_id) w) = db w) /\
  (forall clk course_id student_id e,
     (enroll_course clk course_id student_id w).1 = Raise e ->
     db (after (enroll_course clk course_id student_id) w) = db w) /\
  (forall clk course_id announcement e,
     (create_announcement clk course_id announcement w).1 = Raise e ->
     db (after (create_announcement clk course_id announcement) w) = db w) /\
  (forall clk course_id title description due_date file e,
     (create_assignment clk course_id title description due_date file w).1
     = Raise e ->
     db (after (create_assignment clk course_id title description due_date
                  file) w) = db w).
Proof.
  unfold after. repeat split.
  - intros user e. unfold register. run_handler. unfold insert_user. simpl.
    by destruct (select _ (users (db w))).
  - intros course instructor_id e. unfold create_course. run_handler.
    unfold insert_course. by destruct (has_id _ _).
  - intros clk course_id student_id e. unfold enroll_course. run_handler.
    unfold insert_enrollment. simpl.
    destruct (select _ (enrollments (db w))); simpl; [|done].
    by destruct (has_id course_id _ && has_id student_id _).
  - intros clk course_id announcement e. unfold create_announcement.
    run_handler. unfold insert_announcement. simpl. by destruct (has_id _ _).
  - intros clk course_id title description due_date file e.
    unfold create_assignment. run_handler.
    destruct (rows (courses (db w)) !! course_id) eqn:Hc; [|done].
    destruct file as [f|]; simpl;
      try (destruct (accepts _); simpl; [|done]);
      unfold insert_assignment, has_id; simpl;
      by rewrite Hc, bool_decide_eq_true_2 by eauto.
Qed.

Lemma failed_write_keeps_store_witness :
  (register Tour.ada Tour.people).1 =
  Raise (HTTPException 400 "Email already exists") /\
  db (after (register Tour.ada) Tour.people) = db Tour.people.
Proof.
  assert (Hfail : (register Tour.ada Tour.people).1 =
                  Raise (HTTPException 400 "Email already exists"))
    by (vm_compute; reflexivity).
  split; [exact Hfail|].
  exact (proj1 (failed_write_keeps_store Tour.people) Tour.ada _ Hfail).
Defined.

(** ** Stored paths *)

(** X28: [lstrip] takes off leading characters of the given set and
    nothing else: the string is a run of such characters followed by the
    result, and the result does not start with one.  The material handlers
    use it to turn a stored path into the path of the file. *)
Theorem lstrip_spec chars s :
  (exists run,
     Forall (fun c => c ∈ chars) run /\
     String.list_ascii_of_string s =
     (run ++ String.list_ascii_of_string (lstrip chars s))%list) /\
  (forall c rest, lstrip chars s = String c rest -> c ∉ chars).
Proof.
  induction s as [|c s [(run & Hrun & Hs) Hhead]]; simpl.
  - split; [by exists [] | done].
  - destruct (decide (c ∈ chars)) as [Hc|Hc].
    + split; [|done]. exists (c :: run). split; [by constructor|].
      simpl. by rewrite Hs.
    + split; [by exists []|]. by intros c' rest [= <- _].
Qed.

(** ** The remaining lists *)

(** X29: a student's list of enrolled courses holds exactly the courses
    of the student's enrollment rows whose course and instructor rows
    exist, each with the instructor's name. *)
Theorem get_enrolled_courses_entries w student_id :
  exists l,
    get_enrolled_courses student_id w = (Ok l, w) /\
    forall row, row ∈ l <->
      exists ke e c u,
        rows (enrollments (db w)) !! ke = Some e /\
        e_student_id e = student_id /\
        rows (courses (db w)) !! e_course_id e = Some c /\
        rows (users (db w)) !! c_instructor_id c = Some u /\
        row = VDict (course_listing (e_course_id e) c u).
Proof.
  eexists. split; [reflexivity|]. intros row. simpl.
  rewrite list_elem_of_fmap. unfold enrolled_courses_rows. split.
  - intros ([[k c] u] & -> & Hin).
    apply list_elem_of_omap in Hin as ([ke e] & Hke & Hrow).
    apply elem_of_order_by_desc in Hke. apply elem_of_select in Hke as [Hke Hs].
    simpl in Hrow.
    destruct (rows (courses (db w)) !! e_course_id e) as [c'|] eqn:Hc;
      simpl in Hrow; [|done].
    destruct (rows (users (db w)) !! c_instructor_id c') as [u'|] eqn:Hu;
      simpl in Hrow; [|done].
    injection Hrow as <- <- <-. by exists ke, e, c', u'.
  - intros (ke & e & c & u & Hke & Hs & Hc & Hu & ->).
    exists (e_course_id e, c, u). split; [done|].
    apply list_elem_of_omap. exists (ke, e). split.
    + apply elem_of_order_by_desc. by apply elem_of_select.
    + simpl. rewrite Hc. simpl. by rewrite Hu.
Qed.

(** X30: an instructor's course list holds exactly the courses whose
    [instructor_id] is the given id, with the columns of the course and
    without the instructor's name; an id that teaches nothing, or has no
    users row, gets the empty list, not an error. *)
Theorem get_instructor_courses_entries w instructor_id :
  exists l,
    get_instructor_courses instructor_id w = (Ok l, w) /\
    (forall row, row ∈ l <->
       exists k c, rows (courses (db w)) !! k = Some c /\
                   c_instructor_id c = instructor_id /\
                   row = VDict [("id", VInt k); ("title", VStr (c_title c));
                                ("description", VStr (c_description c));
                                ("instructor_id", VInt instructor_id)]) /\
    ((forall k c, rows (courses (db w)) !! k = Some c ->
                  c_instructor_id c <> instructor_id) -> l = []).
Proof.
  eexists. split; [reflexivity|]. simpl. split.
  - intros row. rewrite list_elem_of_fmap. split.
    + intros ([k c] & -> & Hin). apply elem_of_select in Hin as [Hk Hi].
      exists k, c. split; [done|]. split; [done|]. simpl.
      unfold course_dict. by rewrite Hi.
    + intros (k & c & Hk & Hi & ->). exists (k, c).
      split; [|by apply elem_of_select]. simpl. unfold course_dict.
      by rewrite Hi.
  - intros Hnone.
    rewrite (proj2 (select_nil (fun c => c_instructor_id c = instructor_id)
                               (courses (db w)))); [done|].
    intros k c Hk. exact (Hnone k c Hk).
Qed.

Lemma get_instructor_courses_entries_witness :
  exists l, get_instructor_courses 2 Tour.two_courses = (Ok l, Tour.two_courses) /\
            l = [].
Proof.
  destruct (get_instructor_courses_entries Tour.two_courses 2)
    as (l & Hrun & _ & Hempty).
  exists l. split; [exact Hrun|]. apply Hempty.
  intros k c Hk Hi.
  assert (Hsel : select (fun c => c_instructor_id c = 2)
                        (courses (db Tour.two_courses)) = [])
    by (vm_compute; reflexivity).
  by apply (proj1 (select_nil _ _) Hsel k c).
Defined.
